(** * bibt.gcp.bq: the [Client] wrapper over the BigQuery SDK

    A shallow embedding of [src/bibt/gcp/bq/classes.py].  The class is a
    thin layer of parameter assembly over [google.cloud.bigquery]; what
    it does is mutate dictionaries, call the SDK in a fixed order, log,
    and translate one exception.  The embedding therefore keeps

    - a store of dictionary objects addressed by reference, because
      [config_params], [job_params] and [query_config] are mutated in
      place and their defaults are objects shared by all calls;
    - the ordered list of calls made on the SDK;
    - the log records emitted on [_LOGGER];
    - the state of the external service, threaded through every call.

    The SDK itself is not part of the repository: it is an interface
    ([BigQuerySDK]) every statement quantifies over. *)

From stdpp Require Import gmap strings list fin_maps pretty.

Set Default Proof Using "Type".

(** ** Python exceptions *)

(** What the wrapper can tell apart: [except google_exceptions.BadRequest]
    (line 57) matches [BadRequest] and its subclasses, [except Exception]
    (line 120) matches everything that derives from [Exception], which
    [KeyboardInterrupt], [SystemExit] and [GeneratorExit] do not.  [cls]
    is [type(e).__name__], [msg] is [str(e)]. *)
Inductive exn : Type :=
  | BadRequest (cls msg : string)
  | SystemError (msg : string)
  | OtherException (cls msg : string)
  | NonException (cls msg : string).

Definition is_BadRequest (e : exn) : bool :=
  match e with BadRequest _ _ => true | _ => false end.

Definition is_Exception (e : exn) : bool :=
  match e with NonException _ _ => false | _ => true end.

Definition type_name (e : exn) : string :=
  match e with
  | BadRequest cls _ | OtherException cls _ | NonException cls _ => cls
  | SystemError _ => "SystemError"
  end.

Definition str_exn (e : exn) : string :=
  match e with
  | BadRequest _ msg | OtherException _ msg | NonException _ msg
  | SystemError msg => msg
  end.

(** Raised by the interpreter when a parameter bound by the call itself
    is also a key of the unpacked [**mapping].  The text varies with the
    interpreter; nothing below depends on it. *)
Definition TypeError_multiple_values (name : string) : exn :=
  OtherException "TypeError"
    ("got multiple values for keyword argument '" +:+ name +:+ "'").

(** The double-quote character, for the messages that contain it. *)
Definition dq : string :=
  String (Ascii.Ascii false true false false false true false false) EmptyString.

Inductive outcome (A : Type) : Type :=
  | Ok (a : A)
  | Raise (e : exn).
Arguments Ok {A} a.
Arguments Raise {A} e.

(** ** Values and SDK objects *)

Record SchemaField : Type := mkSchemaField {
  field_name : string;
  field_type : string;
  field_mode : string
}.

Record Table : Type := mkTable {
  table_id : string;
  schema : list SchemaField
}.

Record Job : Type := mkJob { job_id : string }.

Record ErrorDetail : Type := mkErrorDetail {
  err_reason : string;
  err_location : string;
  err_message : string
}.

(** What can sit under a key of the three mappings.  A job-config object
    is kept as the class it instantiates and the properties the SDK gave
    it. *)
#[warnings="-register-all"]
Inductive value : Type :=
  | VNone
  | VBool (b : bool)
  | VInt (n : Z)
  | VStr (s : string)
  | VSchema (fields : list SchemaField)
  | VTable (t : Table)
  | VJobConfig (cls : string) (props : gmap string value).

(** A result row, as [row.items()] presents it: (column name, value)
    pairs in column order. *)
Record Row : Type := mkRow { items : list (string * value) }.

Record RowIterator : Type := mkRowIterator {
  it_schema : list SchemaField;
  it_rows : list Row
}.

(** [bigquery.WriteDisposition] and [bigquery.SourceFormat] are classes of
    string constants in the SDK. *)
Module WriteDisposition.
Definition WRITE_APPEND : value := VStr "WRITE_APPEND".
Definition WRITE_TRUNCATE : value := VStr "WRITE_TRUNCATE".
Definition WRITE_EMPTY : value := VStr "WRITE_EMPTY".
End WriteDisposition.

Module SourceFormat.
Definition NEWLINE_DELIMITED_JSON : value := VStr "NEWLINE_DELIMITED_JSON".
Definition CSV : value := VStr "CSV".
End SourceFormat.

(** ** The SDK, as the wrapper uses it

    [S] is the state of everything outside the process: the warehouse,
    the bucket, the local file the schema is read from.  Each operation
    may change it and may raise. *)
Class BigQuerySDK (S : Type) : Type := {
  (* bigquery.Client.get_table(name) *)
  Client_get_table : string → S → outcome Table * S;
  (* bigquery.Client.schema_from_json(path) *)
  Client_schema_from_json : string → S → outcome (list SchemaField) * S;
  (* bigquery.Client.load_table_from_uri( **kwargs ) *)
  Client_load_table_from_uri : gmap string value → S → outcome Job * S;
  (* bigquery.Client.query(query, job_config=config) *)
  Client_query : string → option value → S → outcome Job * S;
  (* job.result() *)
  Job_result : Job → S → outcome RowIterator * S;
  (* job.errors *)
  Job_errors : Job → S → option (list ErrorDetail);
  (* len(results) *)
  RowIterator_len : RowIterator → outcome nat;
  (* bigquery.LoadJobConfig( **kwargs ) *)
  LoadJobConfig : gmap string value → outcome value;
  (* bigquery.QueryJobConfig( **kwargs ) *)
  QueryJobConfig : gmap string value → outcome value
}.

(** ** The world the methods run in *)

Inductive level : Type := DEBUG | INFO | WARNING | ERROR.

Inductive log_msg : Type :=
  | Msg (s : string)
  | MsgErrors (errors : option (list ErrorDetail))
  | MsgDict (prefix : string) (d : gmap string value).

Inductive sdk_call : Type :=
  | Call_get_table (name : string)
  | Call_schema_from_json (path : string)
  | Call_LoadJobConfig (kwargs : gmap string value)
  | Call_QueryJobConfig (kwargs : gmap string value)
  | Call_load_table_from_uri (kwargs : gmap string value)
  | Call_query (query : string) (job_config : option value)
  | Call_result (job : Job)
  | Call_len (results : RowIterator).

(** References to dictionary objects. *)
Definition ref : Type := nat.

Record world (S : Type) : Type := World {
  heap : gmap ref (gmap string value);
  logs : list (level * log_msg);
  calls : list sdk_call;
  svc : S
}.
Arguments World {S} heap logs calls svc.
Arguments heap {S} w.
Arguments logs {S} w.
Arguments calls {S} w.
Arguments svc {S} w.

(** The dictionary a reference denotes. *)
Definition deref {S} (w : world S) (d : ref) : gmap string value :=
  default ∅ (heap w !! d).

(** The three [{}] of the [def] lines 76, 77 and 159: evaluated once,
    when the class body runs, and bound to the functions from then on. *)
Module Defaults.
Definition upload_gcs_json_config_params : ref := 0.
Definition upload_gcs_json_job_params : ref := 1.
Definition query_query_config : ref := 2.
End Defaults.

(** The store right after the module has been imported. *)
Definition heap_at_import : gmap ref (gmap string value) :=
  <[Defaults.query_query_config := ∅]>
    (<[Defaults.upload_gcs_json_job_params := ∅]>
      (<[Defaults.upload_gcs_json_config_params := ∅]> ∅)).

(** ** State and exceptions *)

Definition M (S A : Type) : Type := world S → outcome A * world S.

Definition ret {S A} (a : A) : M S A := λ w, (Ok a, w).

Definition bind {S A B} (m : M S A) (k : A → M S B) : M S B :=
  λ w, match m w with
       | (Ok a, w') => k a w'
       | (Raise e, w') => (Raise e, w')
       end.

Definition raise {S A} (e : exn) : M S A := λ w, (Raise e, w).

(** [try: body / except <class>: handler]: the handler runs for the
    exceptions the clause matches, the others pass through. *)
Definition try_except {S A} (body : M S A) (matches : exn → bool)
    (handler : exn → M S A) : M S A :=
  λ w, match body w with
       | (Ok a, w') => (Ok a, w')
       | (Raise e, w') => if matches e then handler e w' else (Raise e, w')
       end.

Declare Scope py_scope.
Delimit Scope py_scope with py.
Notation "x <- m ;; k" := (bind m (λ x, k))
  (at level 100, m at next level, right associativity,
   format "'[v' x  <-  m  ;;  '/' k ']'") : py_scope.
Notation "m ;;; k" := (bind m (λ _, k))
  (at level 100, right associativity,
   format "'[v' m  ;;;  '/' k ']'") : py_scope.
Open Scope py_scope.

(** ** Statements the methods are made of *)

Section Primitives.
Context {S : Type} `{!BigQuerySDK S}.

(** [_LOGGER.<level>(msg)] *)
Definition log (l : level) (m : log_msg) : M S unit :=
  λ w, (Ok (), World (heap w) (logs w ++ [(l, m)]) (calls w) (svc w)).

(** The object [d] refers to becomes [m]; every holder of the
    reference sees it. *)
Definition store (w : world S) (d : ref) (m : gmap string value) : world S :=
  World (<[d := m]> (heap w)) (logs w) (calls w) (svc w).

(** [d[key] = v], on the object [d] refers to. *)
Definition setitem (d : ref) (key : string) (v : value) : M S unit :=
  λ w, (Ok (), store w d (<[key := v]> (deref w d))).

(** The contents of [d] now: what [**d], [key in d], [if d:] and
    [f"{d}"] read. *)
Definition contents (d : ref) : M S (gmap string value) :=
  λ w, (Ok (deref w d), w).

(** A call on the SDK that reaches the service: recorded, then run on
    the service state. *)
Definition remote {A} (c : sdk_call) (op : S → outcome A * S) : M S A :=
  λ w, let '(r, s') := op (svc w) in
       (r, World (heap w) (logs w) (calls w ++ [c]) s').

(** A call on the SDK that stays in the process. *)
Definition local {A} (c : sdk_call) (r : outcome A) : M S A :=
  λ w, (r, World (heap w) (logs w) (calls w ++ [c]) (svc w)).

(** [job.errors], a property read. *)
Definition errors (job : Job) : M S (option (list ErrorDetail)) :=
  λ w, (Ok (Job_errors job (svc w)), w).

(** Truth value of [schema_json_path]: [None] and [""] are false. *)
Definition truthy_path (p : option string) : option string :=
  match p with
  | Some s => if decide (s = EmptyString) then None else Some s
  | None => None
  end.

(** [dict(pairs)]: a later pair wins over an earlier one with the same
    key. *)
Definition dict (pairs : list (string * value)) : gmap string value :=
  foldl (λ d kv, <[kv.1 := kv.2]> d) ∅ pairs.

(** Binding [**kwargs] against a signature whose named parameters are
    [named]: a key that is also a named parameter is a [TypeError]. *)
Definition unpack (named : list string) (kwargs : gmap string value)
    : M S (gmap string value) :=
  match filter (λ n, is_Some (kwargs !! n)) named with
  | [] => ret kwargs
  | n :: _ => raise (TypeError_multiple_values n)
  end.
End Primitives.

(** ** class Client *)

Section Client.
Context {S : Type} `{!BigQuerySDK S}.

(** Lines 32-46. *)
Definition get_schema (bq_project dataset table : string)
    : M S (list SchemaField) :=
  table <- remote (Call_get_table (bq_project +:+ "." +:+ dataset +:+ "." +:+ table))
             (Client_get_table (bq_project +:+ "." +:+ dataset +:+ "." +:+ table)) ;;
  ret (schema table).

(** Lines 48-62. *)
Definition _monitor_job (job : Job) : M S unit :=
  try_except
    (_ <- remote (Call_result job) (Job_result job) ;; ret ())
    is_BadRequest
    (λ _,
       errs <- errors job ;;
       log ERROR (MsgErrors errs) ;;;
       raise (SystemError
         "Import failed with BadRequest exception. See error data in logs.")) ;;;
  ret ().

(** Lines 145-146. *)
Definition _build_load_job_config (kwargs : gmap string value) : M S value :=
  kwargs <- unpack ["self"] kwargs ;;
  local (Call_LoadJobConfig kwargs) (LoadJobConfig kwargs).

(** Lines 148-157. *)
Definition _submit_load_job (await_result : bool)
    (kwargs : gmap string value) : M S unit :=
  kwargs <- unpack ["await_result"; "self"] kwargs ;;
  job <- remote (Call_load_table_from_uri kwargs)
           (Client_load_table_from_uri kwargs) ;;
  (if await_result then
     _monitor_job job ;;;
     log INFO (Msg "Upload complete.")
   else ret ()) ;;;
  ret ().

(** The text of the warning of lines 109-113. *)
Definition autodetect_warning : string :=
  "You currently have " +:+ dq +:+ "autodetect_schema" +:+ dq +:+
  " set to True while also specifying a schema. Consider setting " +:+
  dq +:+ "autodetect_schema" +:+ dq +:+
  " to False to avoid type inference conflicts.".

(** Lines 107-131 of [upload_gcs_json]: the config mapping is filled
    in. *)
Definition assemble_config (append ignore_unknown autodetect_schema : bool)
    (schema_json_path : option string) (config_params : ref) : M S unit :=
  match truthy_path schema_json_path with
  | Some schema_json_path =>
      (if autodetect_schema then log WARNING (Msg autodetect_warning)
       else ret ()) ;;;
      log DEBUG (Msg "Trying to build schema...") ;;;
      try_except
        (fields <- remote (Call_schema_from_json schema_json_path)
                     (Client_schema_from_json schema_json_path) ;;
         setitem config_params "schema" (VSchema fields) ;;;
         log INFO (Msg "Schema built."))
        is_Exception
        (λ e, log WARNING (Msg ("Failed to build schema: " +:+ type_name e
                                +:+ ": " +:+ str_exn e)))
  | None => ret ()
  end ;;;
  (if append then
     setitem config_params "write_disposition" WriteDisposition.WRITE_APPEND
   else
     setitem config_params "write_disposition" WriteDisposition.WRITE_TRUNCATE) ;;;
  setitem config_params "source_format" SourceFormat.NEWLINE_DELIMITED_JSON ;;;
  setitem config_params "ignore_unknown_values" (VBool ignore_unknown) ;;;
  setitem config_params "autodetect" (VBool autodetect_schema).

(** Lines 132-143 of [upload_gcs_json]: the job parameters are filled
    in and the load is submitted. *)
Definition submit_assembled (await_result : bool)
    (source_uri table_ref : string) (config_params job_params : ref)
    : M S unit :=
  setitem job_params "source_uris" (VStr source_uri) ;;;
  destination <- remote (Call_get_table table_ref) (Client_get_table table_ref) ;;
  setitem job_params "destination" (VTable destination) ;;;
  kwargs <- contents config_params ;;
  job_config <- _build_load_job_config kwargs ;;
  setitem job_params "job_config" job_config ;;;
  log INFO (Msg ("Submitting job to upload [" +:+ source_uri +:+ "] to ["
                 +:+ table_ref +:+ "]...")) ;;;
  kwargs <- contents job_params ;;
  log DEBUG (MsgDict "BigQuery load job params: " kwargs) ;;;
  _submit_load_job await_result kwargs ;;;
  ret ().

(** Lines 64-143.  [config_params] and [job_params] are [None] when the
    caller leaves the argument out, and the function then runs on its
    default object. *)
Definition upload_gcs_json (bucket_name blob_name bq_project dataset table : string)
    (append ignore_unknown autodetect_schema : bool)
    (schema_json_path : option string) (await_result : bool)
    (config_params job_params : option ref) : M S unit :=
  let config_params :=
    default Defaults.upload_gcs_json_config_params config_params in
  let job_params := default Defaults.upload_gcs_json_job_params job_params in
  let source_uri := "gs://" +:+ bucket_name +:+ "/" +:+ blob_name in
  let table_ref := bq_project +:+ "." +:+ dataset +:+ "." +:+ table in
  assemble_config append ignore_unknown autodetect_schema schema_json_path
    config_params ;;;
  submit_assembled await_result source_uri table_ref config_params job_params.

(** Lines 159-189.  The result is [None] or the list of row
    dictionaries. *)
Definition query (query : string) (query_config : option ref)
    (await_result : bool) : M S (option (list (gmap string value))) :=
  let query_config := default Defaults.query_query_config query_config in
  d <- contents query_config ;;
  (if negb await_result && bool_decide (d !! "priority" = None) then
     setitem query_config "priority" (VStr "BATCH")
   else ret ()) ;;;
  d <- contents query_config ;;
  config <- (if decide (size d = 0) then ret None
             else c <- local (Call_QueryJobConfig d) (QueryJobConfig d) ;;
                  ret (Some c)) ;;
  log INFO (Msg ("Sending query: " +:+ query)) ;;;
  log DEBUG (MsgDict "Query job config: " d) ;;;
  query_job <- remote (Call_query query config) (Client_query query config) ;;
  if negb await_result then
    log INFO (Msg "Not waiting for result of query, returning None.") ;;;
    ret None
  else
    results <- remote (Call_result query_job) (Job_result query_job) ;;
    n <- local (Call_len results) (RowIterator_len results) ;;
    log INFO (Msg ("Iterating over " +:+ pretty n +:+ " result rows...")) ;;;
    let results_json :=
      foldl (λ acc row, acc ++ [dict (items row)]) [] (it_rows results) in
    log DEBUG (Msg "Returning results as list of dicts.") ;;;
    ret (Some results_json).
End Client.

(** The calls a computation adds to the record when started in [w]. *)
Definition made {S A} (m : M S A) (w : world S) : list sdk_call :=
  drop (length (calls w)) (calls (m w).2).

(** ** Vocabulary of the statements *)

(** What lines 123-131 write over a mapping. *)
Definition with_arguments (append ignore_unknown autodetect_schema : bool)
    (m : gmap string value) : gmap string value :=
  <["autodetect" := VBool autodetect_schema]>
    (<["ignore_unknown_values" := VBool ignore_unknown]>
      (<["source_format" := SourceFormat.NEWLINE_DELIMITED_JSON]>
        (<["write_disposition" :=
             if append then WriteDisposition.WRITE_APPEND
             else WriteDisposition.WRITE_TRUNCATE]> m))).

(** The log lines of the schema block up to the parse. *)
Definition schema_preamble (autodetect_schema : bool) : list (level * log_msg) :=
  (if autodetect_schema then [(WARNING, Msg autodetect_warning)] else [])
  ++ [(DEBUG, Msg "Trying to build schema...")].

(** The calls of the schema block. *)
Definition schema_calls (schema_json_path : option string) : list sdk_call :=
  match truthy_path schema_json_path with
  | Some p => [Call_schema_from_json p]
  | None => []
  end.

(** The query config mapping after lines 171-172. *)
Definition assembled_query_config (await_result : bool)
    (d : gmap string value) : gmap string value :=
  if negb await_result && bool_decide (d !! "priority" = None)
  then <["priority" := VStr "BATCH"]> d else d.

(** C4, as the spec words it: after a parse failure the config the job
    is built from has no [schema] key. *)
Definition parse_failure_leaves_no_schema {S : Type} `{!BigQuerySDK S}
    (bucket_name blob_name bq_project dataset table : string)
    (append ignore_unknown autodetect_schema : bool)
    (schema_json_path : option string) (await_result : bool)
    (config_params job_params : option ref) (w : world S) : Prop :=
  ∀ p e s',
    truthy_path schema_json_path = Some p →
    Client_schema_from_json p (svc w) = (Raise e, s') →
    is_Exception e = true →
    ∀ kw,
      Call_LoadJobConfig kw ∈
        made (upload_gcs_json bucket_name blob_name bq_project dataset table
                append ignore_unknown autodetect_schema schema_json_path
                await_result config_params job_params) w →
      kw !! "schema" = None.

(** A computation that only ever adds lines to the log. *)
Definition appends_logs {S A : Type} (m : M S A) : Prop :=
  ∀ w, ∃ rest, logs (m w).2 = logs w ++ rest.


(** ** A small service to run the methods on

    One table, [proj.ds.events]; one readable schema file, [schema.json];
    jobs are numbered as they are submitted; the query [SELECT broken]
    is accepted and then fails with a 400, [SELECT down] with a 503. *)
Module Demo.
Definition events_schema : list SchemaField :=
  [mkSchemaField "id" "INTEGER" "REQUIRED";
   mkSchemaField "name" "STRING" "NULLABLE"].

Definition events : Table := mkTable "proj.ds.events" events_schema.

Definition rows : RowIterator :=
  mkRowIterator events_schema
    [mkRow [("id", VInt 1); ("name", VStr "ada")];
     mkRow [("id", VInt 2); ("name", VNone)]].

Definition invalid : list ErrorDetail :=
  [mkErrorDetail "invalidQuery" "query" "Unrecognized name: broken"].

#[global] Instance sdk : BigQuerySDK nat := {
  Client_get_table name n :=
    if decide (name = "proj.ds.events") then (Ok events, n)
    else (Raise (OtherException "NotFound" ("Not found: Table " +:+ name)), n);
  Client_schema_from_json path n :=
    if decide (path = "schema.json") then (Ok events_schema, n)
    else (Raise (OtherException "JSONDecodeError" "Expecting value"), n);
  Client_load_table_from_uri kwargs n := (Ok (mkJob ("load-" +:+ pretty n)), S n);
  Client_query q config n :=
    if decide (q = "SELECT broken") then (Ok (mkJob "broken"), S n)
    else if decide (q = "SELECT down") then (Ok (mkJob "down"), S n)
    else (Ok (mkJob ("query-" +:+ pretty n)), S n);
  Job_result job n :=
    if decide (job_id job = "broken")
    then (Raise (BadRequest "BadRequest" "400 Unrecognized name: broken"), n)
    else if decide (job_id job = "down")
    then (Raise (OtherException "ServiceUnavailable" "503 backend error"), n)
    else (Ok rows, n);
  Job_errors job n :=
    if decide (job_id job = "broken") then Some invalid else None;
  RowIterator_len results := Ok (length (it_rows results));
  LoadJobConfig kwargs := Ok (VJobConfig "LoadJobConfig" kwargs);
  QueryJobConfig kwargs := Ok (VJobConfig "QueryJobConfig" kwargs)
}.

(** The process right after import, nothing submitted yet. *)
Definition fresh : world nat := World heap_at_import [] [] 0.

(** A caller that owns two dictionaries, at 7 and 8: 7 already names a
    schema, a write disposition and a source format of its own. *)
Definition caller : world nat :=
  World (<[8 := ∅]>
          (<[7 := <["schema" := VStr "legacy"]>
                    (<["write_disposition" := WriteDisposition.WRITE_EMPTY]>
                      (<["source_format" := SourceFormat.CSV]> ∅))]>
            heap_at_import))
        [] [] 0.
End Demo.

(** Calls on the demo service that the examples below run. *)
Module DemoRuns.
(** An upload that truncates, on the caller's own dictionaries. *)
Definition truncating_upload : M nat unit :=
  upload_gcs_json "bucket" "events.json" "proj" "ds" "events"
    false true false None true (Some 7) (Some 8).

(** The job parameters that upload submits. *)
Definition truncating_kwargs : gmap string value :=
  <["job_config" :=
      VJobConfig "LoadJobConfig"
        (with_arguments false true false (deref Demo.caller 7))]>
    (<["destination" := VTable Demo.events]>
      (<["source_uris" := VStr "gs://bucket/events.json"]> ∅)).

(** An upload into a table that does not exist, schema autodetected. *)
Definition upload_to_missing : M nat unit :=
  upload_gcs_json "bucket" "events.json" "proj" "ds" "missing"
    true true true None true None None.

(** Uploads with a schema file, on the default mappings. *)
Definition upload_with (schema_json_path : option string) : M nat unit :=
  upload_gcs_json "bucket" "events.json" "proj" "ds" "events"
    true true false schema_json_path true None None.

(** The same, on the caller's dictionaries. *)
Definition callers_upload_with (schema_json_path : option string)
    : M nat unit :=
  upload_gcs_json "bucket" "events.json" "proj" "ds" "events"
    true true false schema_json_path true (Some 7) (Some 8).
End DemoRuns.

(** ** A less obliging service

    The table [proj.ds.events] exists; [schema.json] parses and reading
    [interrupted.json] is interrupted; a load from [gs://bucket/bad.json]
    is accepted and then fails with a 400, one from
    [gs://bucket/lost.json] with a 503; the query [SELECT denied] is
    refused; results have no length; the state counts the jobs
    accepted. *)
Module Picky.
Record desk : Type := Desk { accepted : nat }.

Definition rejected : list ErrorDetail :=
  [mkErrorDetail "invalid" "gs://bucket/bad.json" "JSON parsing error in row 1"].

Definition no_len : exn :=
  OtherException "TypeError" "object of type 'RowIterator' has no len()".

#[global] Instance sdk : BigQuerySDK desk := {
  Client_get_table name s :=
    if decide (name = "proj.ds.events") then (Ok Demo.events, s)
    else (Raise (OtherException "NotFound" ("Not found: Table " +:+ name)), s);
  Client_schema_from_json path s :=
    if decide (path = "schema.json") then (Ok Demo.events_schema, s)
    else if decide (path = "interrupted.json")
    then (Raise (NonException "KeyboardInterrupt" EmptyString), s)
    else (Raise (OtherException "FileNotFoundError" path), s);
  Client_load_table_from_uri kwargs s :=
    (Ok (mkJob
           match kwargs !! "source_uris" with
           | Some (VStr uri) =>
               if decide (uri = "gs://bucket/bad.json") then "rejected"
               else if decide (uri = "gs://bucket/lost.json") then "lost"
               else "fine"
           | _ => "fine"
           end),
     Desk (Datatypes.S (accepted s)));
  Client_query q config s :=
    if decide (q = "SELECT denied")
    then (Raise (OtherException "Forbidden" "403 Access Denied"), s)
    else (Ok (mkJob "fine"), Desk (Datatypes.S (accepted s)));
  Job_result job s :=
    if decide (job_id job = "rejected")
    then (Raise (BadRequest "BadRequest" "400 Error while reading data"), s)
    else if decide (job_id job = "lost")
    then (Raise (OtherException "ServiceUnavailable" "503 backend error"), s)
    else (Ok Demo.rows, s);
  Job_errors job s :=
    if decide (job_id job = "rejected") then Some rejected else None;
  RowIterator_len results := Raise no_len;
  LoadJobConfig kwargs := Ok (VJobConfig "LoadJobConfig" kwargs);
  QueryJobConfig kwargs := Ok (VJobConfig "QueryJobConfig" kwargs)
}.

(** The process right after import. *)
Definition fresh : world desk := World heap_at_import [] [] (Desk 0).

(** Loads of a blob of [bucket] into [proj.ds.events], awaited, on the
    default mappings. *)
Definition upload_of (blob_name : string) (schema_json_path : option string)
    : M desk unit :=
  upload_gcs_json "bucket" blob_name "proj" "ds" "events"
    true true false schema_json_path true None None.
End Picky.

(** Callers of the demo service with mappings of their own. *)
Module Callers.
(** Job parameters that name [await_result], at 9. *)
Definition overriding : world nat :=
  World (<[9 := {["await_result" := VBool false]}]> heap_at_import) [] [] 0.

(** A config mapping that names [self], at 9. *)
Definition selfish : world nat :=
  World (<[9 := {["self" := VNone]}]> heap_at_import) [] [] 0.

(** A config mapping with a key the function does not assign, at 9. *)
Definition tuned : world nat :=
  World (<[9 := {["max_bad_records" := VInt 5]}]> heap_at_import) [] [] 0.

(** A query config that names a priority, at 9. *)
Definition prioritised : world nat :=
  World (<[9 := {["priority" := VStr "INTERACTIVE"]}]> heap_at_import)
    [] [] 0.

(** An upload into [proj.ds.events] on the mappings given. *)
Definition upload_on (await_result : bool)
    (config_params job_params : option ref) : M nat unit :=
  upload_gcs_json "bucket" "events.json" "proj" "ds" "events"
    true true false None await_result config_params job_params.
End Callers.

(** ** Basic facts about the store and the record of calls *)

Section Facts.
Context {S : Type} `{!BigQuerySDK S}.
Implicit Types (w : world S) (d : ref) (m : gmap string value).

Lemma deref_store w d d' m :
  deref (store w d m) d' = if decide (d = d') then m else deref w d'.
Proof.
  unfold deref, store; simpl. rewrite lookup_insert.
  by case_decide.
Qed.

Lemma deref_store_eq w d m : deref (store w d m) d = m.
Proof. rewrite deref_store. by case_decide. Qed.

Lemma deref_store_ne w d d' m : d ≠ d' → deref (store w d m) d' = deref w d'.
Proof. intros. rewrite deref_store. by case_decide. Qed.

Lemma made_app {A} (f : M S A) w cs :
  calls (f w).2 = calls w ++ cs → made f w = cs.
Proof. unfold made. intros ->. apply drop_app_length. Qed.

Lemma dict_snoc pairs k v : dict (pairs ++ [(k, v)]) = <[k := v]> (dict pairs).
Proof. unfold dict. by rewrite foldl_app. Qed.


(** The loop of lines 185-187 is a map over the rows. *)
Lemma results_json_map (rows : list Row) :
  foldl (λ acc row, acc ++ [dict (items row)]) [] rows
  = (λ row, dict (items row)) <$> rows.
Proof.
  induction rows as [|row rows IH] using rev_ind; [done|].
  by rewrite foldl_app, fmap_app, IH.
Qed.
End Facts.

(** ** Running a method backwards

    From the result of a run to the steps that produced it. *)

Section Inversion.
Context {S : Type} `{!BigQuerySDK S}.
Implicit Types (w : world S).

Lemma bind_inv {A B} (m : M S A) (k : A → M S B) w r w' :
  bind m k w = (r, w') →
  (∃ a w1, m w = (Ok a, w1) ∧ k a w1 = (r, w')) ∨
  (∃ e, m w = (Raise e, w') ∧ r = Raise e).
Proof.
  unfold bind. destruct (m w) as [[a|e] w1]; intros Hk.
  - left. eauto.
  - right. exists e. by simplify_eq.
Qed.

Lemma try_except_inv {A} (body : M S A) matches handler w r w' :
  try_except body matches handler w = (r, w') →
  (∃ a, body w = (Ok a, w') ∧ r = Ok a) ∨
  (∃ e w1, body w = (Raise e, w1) ∧ matches e = true
           ∧ handler e w1 = (r, w')) ∨
  (∃ e, body w = (Raise e, w') ∧ matches e = false ∧ r = Raise e).
Proof.
  unfold try_except. destruct (body w) as [[a|e] w1]; intros Hk.
  - left. exists a. by simplify_eq.
  - destruct (matches e) eqn:He.
    + right; left. eauto.
    + right; right. exists e. by simplify_eq.
Qed.

Lemma remote_inv {A} c (op : S → outcome A * S) w r w' :
  remote c op w = (r, w') →
  ∃ s', op (svc w) = (r, s') ∧
        w' = World (heap w) (logs w) (calls w ++ [c]) s'.
Proof.
  unfold remote. destruct (op (svc w)) as [r0 s'] eqn:Hop.
  intros ?; simplify_eq. eauto.
Qed.

Lemma unpack_inv named kwargs w r w' :
  unpack named kwargs w = (r, w') →
  w' = w ∧
  ((r = Ok kwargs ∧ ∀ n, n ∈ named → kwargs !! n = None) ∨
   (∃ n, n ∈ named ∧ is_Some (kwargs !! n) ∧
         r = Raise (TypeError_multiple_values n))).
Proof.
  unfold unpack.
  destruct (filter _ named) as [|n l] eqn:Hf; intros Hr.
  - unfold ret in Hr. simplify_eq. split; [done|left]. split; [done|].
    intros n Hn. destruct (kwargs !! n) eqn:Hk; [|done].
    assert (n ∈ filter (λ n, is_Some (kwargs !! n)) named) as Hin
      by (apply list_elem_of_filter; eauto).
    rewrite Hf in Hin. by apply elem_of_nil in Hin.
  - unfold raise in Hr. simplify_eq. split; [done|right].
    assert (n ∈ filter (λ n, is_Some (kwargs !! n)) named) as Hin
      by (rewrite Hf; left).
    apply list_elem_of_filter in Hin as [??]. eauto.
Qed.
End Inversion.

(** A key looked up under a pile of assignments. *)
Ltac lookup_key :=
  rewrite ?lookup_insert_ne by done; rewrite ?lookup_insert_eq; done.

(** A step that cannot raise: its run is a pair of known shape. *)
Ltac pure_step H := first [discriminate H | injection H as <- <-].

(** ** Schema lookup and job monitoring *)

Section Small.
Context {S : Type} `{!BigQuerySDK S}.

(** C7. [get_schema(project, dataset, table)] asks the handle for the
    table named exactly [project.dataset.table], once; it returns the
    [schema] of the table it gets, and whatever the handle raises comes
    out as raised. *)
Theorem get_schema_asks_qualified_name (bq_project dataset table : string)
    (w : world S) :
  let name := bq_project +:+ "." +:+ dataset +:+ "." +:+ table in
  get_schema bq_project dataset table w =
  match Client_get_table name (svc w) with
  | (Ok t, s') =>
      (Ok (schema t),
       World (heap w) (logs w) (calls w ++ [Call_get_table name]) s')
  | (Raise e, s') =>
      (Raise e,
       World (heap w) (logs w) (calls w ++ [Call_get_table name]) s')
  end.
Proof.
  intros name. unfold get_schema, bind, remote, ret. fold name.
  by destruct (Client_get_table name (svc w)) as [[t|e] s'].
Qed.

(** C3. [_monitor_job(job)] waits for the job.  When [job.result()]
    raises a [BadRequest], the job's [errors] are logged at level ERROR
    and a [SystemError] with the fixed message is raised; any other
    exception leaves as it came, with nothing logged. *)
Theorem monitor_job_translates_bad_request (job : Job) (w : world S) :
  _monitor_job job w =
  match Job_result job (svc w) with
  | (Ok _, s') =>
      (Ok (), World (heap w) (logs w) (calls w ++ [Call_result job]) s')
  | (Raise e, s') =>
      if is_BadRequest e then
        (Raise (SystemError
           "Import failed with BadRequest exception. See error data in logs."),
         World (heap w) (logs w ++ [(ERROR, MsgErrors (Job_errors job s'))])
               (calls w ++ [Call_result job]) s')
      else
        (Raise e, World (heap w) (logs w) (calls w ++ [Call_result job]) s')
  end.
Proof.
  unfold _monitor_job, bind, try_except, remote, errors, log, raise, ret.
  destruct (Job_result job (svc w)) as [[r|e] s']; simpl; [done|].
  by destruct (is_BadRequest e).
Qed.
End Small.

(** ** The helper methods *)

Section Helpers.
Context {S : Type} `{!BigQuerySDK S}.
Implicit Types (w : world S) (d : ref) (kwargs : gmap string value).

(** Monitoring touches no dictionary and asks for the result once. *)
Lemma monitor_job_effect job w :
  heap (_monitor_job job w).2 = heap w ∧
  calls (_monitor_job job w).2 = calls w ++ [Call_result job].
Proof.
  unfold _monitor_job, bind, try_except, remote, errors, log, raise, ret.
  destruct (Job_result job (svc w)) as [[r|e] s']; simpl; [done|].
  by destruct (is_BadRequest e).
Qed.

Lemma build_load_job_config_inv kwargs w r w' :
  _build_load_job_config kwargs w = (r, w') →
  (is_Some (kwargs !! "self") ∧ w' = w
     ∧ r = Raise (TypeError_multiple_values "self")) ∨
  (kwargs !! "self" = None ∧ r = LoadJobConfig kwargs
     ∧ w' = World (heap w) (logs w)
              (calls w ++ [Call_LoadJobConfig kwargs]) (svc w)).
Proof.
  unfold _build_load_job_config. intros Hrun.
  apply bind_inv in Hrun as [(kw & w1 & Hu & Hrun)|(e & Hu & ->)];
    apply unpack_inv in Hu as [-> Hu].
  - destruct Hu as [[[= ->] Hn]|(n & _ & _ & ?)]; [|done].
    right. unfold local in Hrun. simplify_eq.
    split; [|done]. apply Hn. left.
  - destruct Hu as [[? _]|(n & Hin & Hs & [= ->])]; [done|].
    apply list_elem_of_singleton in Hin as ->. by left.
Qed.

(** Submitting touches no dictionary; the only load it can submit is
    the one for the parameters it was given. *)
Lemma submit_load_job_inv await_result kwargs w r w' :
  _submit_load_job await_result kwargs w = (r, w') →
  heap w' = heap w ∧
  ∃ cs, calls w' = calls w ++ cs ∧
    ∀ c, c ∈ cs → c = Call_load_table_from_uri kwargs ∨ ∃ j, c = Call_result j.
Proof.
  unfold _submit_load_job. intros Hrun.
  apply bind_inv in Hrun as [(kw & w1 & Hu & Hrun)|(e & Hu & ->)];
    apply unpack_inv in Hu as [-> Hu]; last first.
  { split; [done|]. exists []. rewrite app_nil_r. split; [done|].
    intros c Hc. by apply elem_of_nil in Hc. }
  destruct Hu as [[[= ->] _]|(n & _ & _ & ?)]; [|done].
  apply bind_inv in Hrun as [(job & w2 & Hl & Hrun)|(e & Hl & ->)];
    apply remote_inv in Hl as (s' & _ & ->); last first.
  { split; [done|]. exists [Call_load_table_from_uri kwargs].
    split; [done|]. intros c Hc. apply list_elem_of_singleton in Hc. eauto. }
  set (w2 := World _ _ _ _) in Hrun.
  assert (heap w' = heap w2 ∧
          (calls w' = calls w2 ∨ calls w' = calls w2 ++ [Call_result job]))
    as [Hh Hc].
  { destruct await_result.
    - destruct (monitor_job_effect job w2) as [Hh Hc].
      destruct (_monitor_job job w2) as [rm wm] eqn:Hm. simpl in Hh, Hc.
      unfold bind in Hrun. rewrite Hm in Hrun.
      destruct rm; unfold log, ret in Hrun; simplify_eq/=; eauto.
    - unfold bind, ret in Hrun. simplify_eq. eauto. }
  split; [by rewrite Hh|].
  destruct Hc as [Hc|Hc]; rewrite Hc; simpl; rewrite <- ?app_assoc;
    eexists; (split; [done|]); intros c Hin;
    repeat (apply elem_of_cons in Hin as [->|Hin]; eauto);
    by apply elem_of_nil in Hin.
Qed.
End Helpers.

(** ** The two halves of [upload_gcs_json] *)

Section Upload.
Context {S : Type} `{!BigQuerySDK S}.
Implicit Types (w : world S) (d : ref) (m : gmap string value).

Lemma store_store w d m m' : store (store w d m) d m' = store w d m'.
Proof. unfold store; simpl. by rewrite insert_insert_eq. Qed.

Lemma explicit_arguments_run (append ignore_unknown autodetect_schema : bool)
    d w :
  (((if append then
       setitem d "write_disposition" WriteDisposition.WRITE_APPEND
     else
       setitem d "write_disposition" WriteDisposition.WRITE_TRUNCATE) ;;;
    setitem d "source_format" SourceFormat.NEWLINE_DELIMITED_JSON ;;;
    setitem d "ignore_unknown_values" (VBool ignore_unknown) ;;;
    setitem d "autodetect" (VBool autodetect_schema)) : M S unit) w
  = (Ok (), store w d (with_arguments append ignore_unknown
                         autodetect_schema (deref w d))).
Proof.
  unfold bind, with_arguments.
  destruct append; unfold setitem;
    by rewrite !deref_store_eq, !store_store.
Qed.

(** The assembly, run: no path, a schema parsed, a parse failure
    swallowed, a failure that escapes. *)
Lemma assemble_config_run (append ignore_unknown autodetect_schema : bool)
    schema_json_path d w :
  assemble_config append ignore_unknown autodetect_schema schema_json_path d w =
  match truthy_path schema_json_path with
  | None =>
      (Ok (), store w d (with_arguments append ignore_unknown
                           autodetect_schema (deref w d)))
  | Some p =>
      let lg := logs w ++ schema_preamble autodetect_schema in
      let cs := calls w ++ [Call_schema_from_json p] in
      match Client_schema_from_json p (svc w) with
      | (Ok fields, s') =>
          (Ok (),
           store (World (heap w) (lg ++ [(INFO, Msg "Schema built.")]) cs s') d
             (with_arguments append ignore_unknown autodetect_schema
                (<["schema" := VSchema fields]> (deref w d))))
      | (Raise e, s') =>
          if is_Exception e then
            (Ok (),
             store (World (heap w)
                      (lg ++ [(WARNING,
                               Msg ("Failed to build schema: " +:+ type_name e
                                    +:+ ": " +:+ str_exn e))]) cs s') d
               (with_arguments append ignore_unknown autodetect_schema
                  (deref w d)))
          else (Raise e, World (heap w) lg cs s')
      end
  end.
Proof.
  unfold assemble_config.
  destruct (truthy_path schema_json_path) as [p|].
  - unfold bind at 1.
    match goal with
    | |- match ?blk w with _ => _ end = _ =>
        assert (blk w =
          match Client_schema_from_json p (svc w)
          return outcome () * world S with
          | (Ok fields, s') =>
              (Ok (),
               store (World (heap w)
                        ((logs w ++ schema_preamble autodetect_schema)
                         ++ [(INFO, Msg "Schema built.")])
                        (calls w ++ [Call_schema_from_json p]) s') d
                 (<["schema" := VSchema fields]> (deref w d)))
          | (Raise e, s') =>
              if is_Exception e then
                (Ok (),
                 World (heap w)
                   ((logs w ++ schema_preamble autodetect_schema)
                    ++ [(WARNING,
                         Msg ("Failed to build schema: " +:+ type_name e
                              +:+ ": " +:+ str_exn e))])
                   (calls w ++ [Call_schema_from_json p]) s')
              else
                (Raise e,
                 World (heap w) (logs w ++ schema_preamble autodetect_schema)
                   (calls w ++ [Call_schema_from_json p]) s')
          end) as ->
    end.
    { unfold bind, try_except, remote, setitem, log, ret, schema_preamble.
      destruct autodetect_schema; simpl;
        destruct (Client_schema_from_json p _) as [[fields|e] s']; simpl;
        rewrite <- ?app_assoc; try done;
        destruct (is_Exception e); by rewrite <- ?app_assoc. }
    destruct (Client_schema_from_json p (svc w)) as [[fields|e] s']; simpl.
    + rewrite explicit_arguments_run.
      by rewrite deref_store_eq, store_store.
    + destruct (is_Exception e); [|done].
      by rewrite explicit_arguments_run.
  - unfold bind at 1, ret at 1. apply explicit_arguments_run.
Qed.

(** The submission, run backwards: the table is looked up first, the
    job config is built from the config mapping as it stands then, and
    the only load that can follow is the one for the job parameters
    with the three keys written over them. *)
Lemma submit_assembled_inv await_result source_uri table_ref cp jp w r w' :
  submit_assembled await_result source_uri table_ref cp jp w = (r, w') →
  let jp2 := <["source_uris" := VStr source_uri]> (deref w jp) in
  (∀ d, d ≠ jp → deref w' d = deref w d) ∧
  match Client_get_table table_ref (svc w) with
  | (Raise e, _) =>
      r = Raise e ∧ calls w' = calls w ++ [Call_get_table table_ref]
      ∧ deref w' jp = jp2
  | (Ok t, _) =>
      let jp3 := <["destination" := VTable t]> jp2 in
      let kwc := if decide (cp = jp) then jp3 else deref w cp in
      ∃ cs, calls w' = calls w ++ Call_get_table table_ref :: cs ∧
        ((cs = [] ∧ is_Some (kwc !! "self") ∧ deref w' jp = jp3
            ∧ r = Raise (TypeError_multiple_values "self"))
         ∨ (kwc !! "self" = None ∧
            ∃ e, LoadJobConfig kwc = Raise e ∧ cs = [Call_LoadJobConfig kwc]
                 ∧ deref w' jp = jp3 ∧ r = Raise e)
         ∨ (kwc !! "self" = None ∧
            ∃ c cs', LoadJobConfig kwc = Ok c
                 ∧ cs = Call_LoadJobConfig kwc :: cs'
                 ∧ deref w' jp = <["job_config" := c]> jp3
                 ∧ ∀ x, x ∈ cs' →
                     x = Call_load_table_from_uri (<["job_config" := c]> jp3)
                     ∨ ∃ j, x = Call_result j))
  end.
Proof.
  intros Hrun jp2. unfold submit_assembled in Hrun.
  destruct w as [h lg cs0 s]. unfold deref in jp2. cbn [heap] in jp2.
  apply bind_inv in Hrun as [(? & w1 & Hs & Hrun)|(e & Hs & _)];
    unfold setitem, store, deref in Hs; cbn [heap logs calls svc] in Hs;
    simplify_eq.
  fold jp2 in Hrun.
  apply bind_inv in Hrun as [(t & w2 & Hg & Hrun)|(e & Hg & ->)];
    apply remote_inv in Hg as (s2 & Hg & ->);
    cbn [heap logs calls svc] in Hg |- *; rewrite Hg; cbv beta iota zeta;
    last first.
  { unfold deref; cbn [heap]. split; [|split; [done|split; [done|]]].
    - intros d Hd. by rewrite lookup_insert_ne.
    - by rewrite lookup_insert_eq. }
  set (jp3 := <["destination" := VTable t]> jp2) in *.
  set (kwc := if decide (cp = jp) then jp3
              else deref (World h lg cs0 s) cp).
  apply bind_inv in Hrun as [(? & w3 & Hs & Hrun)|(e & Hs & _)];
    unfold setitem, store, deref in Hs; cbn [heap logs calls svc] in Hs;
    simplify_eq.
  rewrite lookup_insert_eq, insert_insert_eq in Hrun. cbn [default from_option id] in Hrun.
  fold jp3 in Hrun.
  apply bind_inv in Hrun as [(kw & w4 & Hc & Hrun)|(e & Hc & _)];
    unfold contents, deref in Hc; cbn [heap] in Hc; pure_step Hc.
  assert (default ∅ (<[jp := jp3]> h !! cp) = kwc) as Hk.
  { unfold kwc, deref; cbn [heap]. rewrite lookup_insert.
    case_decide; case_decide; by simplify_eq. }
  rewrite Hk in Hrun.
  apply bind_inv in Hrun as [(c & w5 & Hb & Hrun)|(e & Hb & ->)];
    apply build_load_job_config_inv in Hb
      as [(Hself & -> & Hr)|(Hself & Hr & ->)];
    cbn [heap logs calls svc] in *;
    [discriminate Hr| |injection Hr as ->|].
  - (* the job config is built *)
    symmetry in Hr.
    apply bind_inv in Hrun as [(? & w6 & Hs & Hrun)|(e & Hs & _)];
      unfold setitem, store, deref in Hs; cbn [heap logs calls svc] in Hs;
      pure_step Hs.
    rewrite lookup_insert_eq, insert_insert_eq in Hrun. cbn [default from_option id] in Hrun.
    apply bind_inv in Hrun as [(? & w7 & Hl & Hrun)|(e & Hl & _)];
      unfold log in Hl; cbn [heap logs calls svc] in Hl; pure_step Hl.
    apply bind_inv in Hrun as [(kwj & w8 & Hc & Hrun)|(e & Hc & _)];
      unfold contents, deref in Hc; cbn [heap logs calls svc] in Hc;
      pure_step Hc.
    rewrite lookup_insert_eq in Hrun. cbn [default from_option id] in Hrun.
    apply bind_inv in Hrun as [(? & w9 & Hl & Hrun)|(e & Hl & _)];
      unfold log in Hl; cbn [heap logs calls svc] in Hl; pure_step Hl.
    assert (∃ r' w0, _submit_load_job await_result (<["job_config" := c]> jp3) w0
                     = (r', w')
              ∧ heap w0 = <[jp := <["job_config" := c]> jp3]> h
              ∧ calls w0 = (cs0 ++ [Call_get_table table_ref])
                           ++ [Call_LoadJobConfig kwc])
      as (r' & w0 & Hsub & Hh0 & Hc0).
    { apply bind_inv in Hrun as [(? & ? & Hsub & Hrun)|(e & Hsub & ->)];
        [unfold ret in Hrun; pure_step Hrun|]; eauto. }
    clear Hrun.
    apply submit_load_job_inv in Hsub as (Hheap & cs' & Hcs & Hin).
    rewrite Hh0 in Hheap. rewrite Hc0 in Hcs. unfold deref. rewrite Hheap.
    cbn [heap]. split.
    { intros d Hd. by rewrite lookup_insert_ne. }
    exists (Call_LoadJobConfig kwc :: cs'). split.
    { rewrite Hcs, <- !app_assoc. done. }
    right; right. split; [done|]. exists c, cs'.
    split; [done|]. split; [done|]. split; [|done].
    by rewrite lookup_insert_eq.
  - (* [self] is a key of the config mapping *)
    unfold deref; cbn [heap]. split.
    { intros d Hd. by rewrite lookup_insert_ne. }
    exists []. split; [done|]. left. by rewrite lookup_insert_eq.
  - (* the constructor raises *)
    symmetry in Hr. unfold deref; cbn [heap]. split.
    { intros d Hd. by rewrite lookup_insert_ne. }
    exists [Call_LoadJobConfig kwc].
    split; [by rewrite <- app_assoc|].
    right; left. split; [done|]. exists e. by rewrite lookup_insert_eq.
Qed.
End Upload.

(** ** [query], run backwards *)

Section Query.
Context {S : Type} `{!BigQuerySDK S}.
Implicit Types (w : world S) (d : gmap string value).

Lemma query_inv (q : string) qc (await_result : bool) w r w' :
  query q qc await_result w = (r, w') →
  let qcr := default Defaults.query_query_config qc in
  let d := assembled_query_config await_result (deref w qcr) in
  deref w' qcr = d ∧ (∀ x, x ≠ qcr → deref w' x = deref w x) ∧
  ∃ cs, calls w' = calls w ++ cs ∧
    ((size d ≠ 0 ∧
      ∃ e, QueryJobConfig d = Raise e ∧ r = Raise e
           ∧ cs = [Call_QueryJobConfig d]) ∨
     ∃ config pre,
       ((size d = 0 ∧ config = None ∧ pre = []) ∨
        (size d ≠ 0 ∧ ∃ c, QueryJobConfig d = Ok c ∧ config = Some c
                           ∧ pre = [Call_QueryJobConfig d])) ∧
       ∃ rq sq, Client_query q config (svc w) = (rq, sq) ∧
         match rq with
         | Raise e => r = Raise e ∧ cs = pre ++ [Call_query q config]
         | Ok job =>
             if await_result then
               ∃ rr sr, Job_result job sq = (rr, sr) ∧
                 match rr with
                 | Raise e =>
                     r = Raise e
                     ∧ cs = pre ++ [Call_query q config; Call_result job]
                 | Ok results =>
                     cs = pre ++ [Call_query q config; Call_result job;
                                  Call_len results] ∧
                     match RowIterator_len results with
                     | Raise e => r = Raise e
                     | Ok _ =>
                         r = Ok (Some ((λ row, dict (items row))
                                       <$> it_rows results))
                     end
                 end
             else r = Ok None ∧ cs = pre ++ [Call_query q config]
         end).
Proof.
  intros Hrun qcr d. unfold query in Hrun. fold qcr in Hrun.
  destruct w as [h lg cs0 s].
  apply bind_inv in Hrun as [(d0 & w1 & Hc & Hrun)|(e & Hc & _)];
    unfold contents in Hc; pure_step Hc.
  (* lines 171-172 *)
  assert (∃ w2, (d1 <- contents qcr ;;
                 config <- (if decide (size d1 = 0) then ret None
                            else c <- local (Call_QueryJobConfig d1)
                                        (QueryJobConfig d1) ;;
                                 ret (Some c)) ;;
                 log INFO (Msg ("Sending query: " +:+ q)) ;;;
                 log DEBUG (MsgDict "Query job config: " d1) ;;;
                 query_job <- remote (Call_query q config)
                                (Client_query q config) ;;
                 if negb await_result then
                   log INFO (Msg
                     "Not waiting for result of query, returning None.") ;;;
                   ret None
                 else
                   results <- remote (Call_result query_job)
                                (Job_result query_job) ;;
                   n <- local (Call_len results) (RowIterator_len results) ;;
                   log INFO (Msg ("Iterating over " +:+ pretty n
                                  +:+ " result rows...")) ;;;
                   let results_json :=
                     foldl (λ acc row, acc ++ [dict (items row)]) []
                       (it_rows results) in
                   log DEBUG (Msg "Returning results as list of dicts.") ;;;
                   ret (Some results_json)) w2 = (r, w')
               ∧ deref w2 qcr = d
               ∧ (∀ x, x ≠ qcr → deref w2 x = deref (World h lg cs0 s) x)
               ∧ calls w2 = cs0 ∧ svc w2 = s)
    as (w2 & Hrun2 & Hd & Hother & Hcalls & Hsvc).
  { unfold d, assembled_query_config.
    destruct (negb await_result && bool_decide _).
    - apply bind_inv in Hrun as [(? & w2 & Hs & Hrun)|(e & Hs & _)];
        unfold setitem in Hs; pure_step Hs.
      eexists. split; [exact Hrun|]. split; [apply deref_store_eq|].
      split; [|done]. intros x Hx. by rewrite deref_store_ne.
    - apply bind_inv in Hrun as [(? & w2 & Hs & Hrun)|(e & Hs & _)];
        unfold ret in Hs; pure_step Hs.
      eexists. split; [exact Hrun|]. done. }
  clear Hrun. clearbody d. cbn [calls svc].
  apply bind_inv in Hrun2 as [(d1 & w3 & Hc & Hrun)|(e & Hc & _)];
    unfold contents in Hc; pure_step Hc. rewrite Hd in Hrun.
  apply bind_inv in Hrun as [(config & w3 & Hcfg & Hrun)|(e & Hcfg & ->)].
  2:{ (* the constructor raises *)
    destruct (decide (size d = 0)) as [Hz|Hz];
      [unfold ret in Hcfg; discriminate Hcfg|].
    apply bind_inv in Hcfg as [(? & ? & Hl & Hr)|(e' & Hl & [= ->])];
      [unfold ret in Hr; discriminate Hr|].
    unfold local in Hl. injection Hl as Hl <-.
    split; [done|]. split; [done|].
    exists [Call_QueryJobConfig d]. split; [by rewrite Hcalls|].
    left. split; [done|]. by exists e'. }
  assert (∃ pre, heap w3 = heap w2 ∧ calls w3 = cs0 ++ pre ∧ svc w3 = s ∧
            ((size d = 0 ∧ config = None ∧ pre = []) ∨
             (size d ≠ 0 ∧ ∃ c, QueryJobConfig d = Ok c ∧ config = Some c
                                ∧ pre = [Call_QueryJobConfig d])))
    as (pre & Hh3 & Hc3 & Hs3 & Hpre).
  { destruct (decide (size d = 0)) as [Hz|Hz].
    - unfold ret in Hcfg. pure_step Hcfg. exists [].
      rewrite app_nil_r. eauto 10.
    - apply bind_inv in Hcfg as [(c & w4 & Hl & Hr)|(e' & Hl & ?)];
        [|discriminate].
      unfold ret in Hr. pure_step Hr. unfold local in Hl.
      injection Hl as Hl <-. cbn [heap calls svc]. rewrite Hcalls.
      exists [Call_QueryJobConfig d]. eauto 10. }
  clear Hcfg.
  assert (deref w3 qcr = d ∧ ∀ x, x ≠ qcr → deref w3 x = deref (World h lg cs0 s) x)
    as [Hd3 Hother3].
  { unfold deref in *. rewrite Hh3. done. }
  clear Hd Hother Hh3 Hcalls Hsvc w2.
  apply bind_inv in Hrun as [(? & w4 & Hl & Hrun)|(e & Hl & _)];
    unfold log in Hl; pure_step Hl.
  apply bind_inv in Hrun as [(? & w5 & Hl & Hrun)|(e & Hl & _)];
    unfold log in Hl; pure_step Hl.
  cbn [heap logs calls svc] in Hrun.
  apply bind_inv in Hrun as [(job & w6 & Hq & Hrun)|(e & Hq & ->)];
    apply remote_inv in Hq as (sq & Hq & ->);
    cbn [heap logs calls svc] in Hq |- *; rewrite Hs3 in Hq.
  2:{ split; [done|]. split; [done|]. exists (pre ++ [Call_query q config]).
      split; [by rewrite Hc3, app_assoc|]. right. exists config, pre.
      split; [done|]. by exists (Raise e), sq. }
  destruct await_result; cbn [negb] in Hrun.
  - (* awaiting *)
    apply bind_inv in Hrun as [(results & w7 & Hr & Hrun)|(e & Hr & ->)];
      apply remote_inv in Hr as (sr & Hr & ->);
      cbn [heap logs calls svc] in Hr |- *.
    2:{ split; [done|]. split; [done|].
        exists (pre ++ [Call_query q config; Call_result job]).
        split; [by rewrite Hc3, <- !app_assoc|]. right. exists config, pre.
        split; [done|]. exists (Ok job), sq. split; [done|].
        by exists (Raise e), sr. }
    assert (deref w' qcr = d
            ∧ (∀ x, x ≠ qcr → deref w' x = deref (World h lg cs0 s) x)
            ∧ calls w' = ((calls w3 ++ [Call_query q config])
                          ++ [Call_result job]) ++ [Call_len results]
            ∧ match RowIterator_len results with
              | Raise e => r = Raise e
              | Ok _ => r = Ok (Some ((λ row, dict (items row))
                                      <$> it_rows results))
              end) as (Hd' & Ho' & Hc' & Hres).
    { apply bind_inv in Hrun as [(n & w8 & Hn & Hrun)|(e & Hn & ->)];
        unfold local in Hn; injection Hn as Hn <-; rewrite Hn.
      - apply bind_inv in Hrun as [(? & w9 & Hl & Hrun)|(e & Hl & _)];
          unfold log in Hl; pure_step Hl.
        apply bind_inv in Hrun as [(? & w10 & Hl & Hrun)|(e & Hl & _)];
          unfold log in Hl; pure_step Hl.
        unfold ret in Hrun. injection Hrun as <- <-.
        by rewrite results_json_map.
      - done. }
    split; [done|]. split; [done|].
    exists (pre ++ [Call_query q config; Call_result job; Call_len results]).
    split; [by rewrite Hc', Hc3, <- !app_assoc|]. right. exists config, pre.
    split; [done|]. exists (Ok job), sq. split; [done|].
    by exists (Ok results), sr.
  - (* not awaiting *)
    apply bind_inv in Hrun as [(? & w7 & Hl & Hrun)|(e & Hl & _)];
      unfold log in Hl; pure_step Hl.
    unfold ret in Hrun. injection Hrun as <- <-.
    split; [done|]. split; [done|]. exists (pre ++ [Call_query q config]).
    split; [cbn [calls]; by rewrite Hc3, app_assoc|]. right.
    exists config, pre. split; [done|]. by exists (Ok job), sq.
Qed.
End Query.

(** ** What a run of [upload_gcs_json] consists of *)

Section UploadRuns.
Context {S : Type} `{!BigQuerySDK S}.
Implicit Types (w : world S) (d : ref) (m : gmap string value).

Lemma assemble_config_calls (append ignore_unknown autodetect_schema : bool)
    schema_json_path d w :
  calls (assemble_config append ignore_unknown autodetect_schema
           schema_json_path d w).2
  = calls w ++ schema_calls schema_json_path.
Proof.
  rewrite assemble_config_run. unfold schema_calls.
  destruct (truthy_path schema_json_path) as [p|]; cbn zeta.
  - destruct (Client_schema_from_json p (svc w)) as [[fields|e] s'];
      [done|]. by destruct (is_Exception e).
  - cbn. by rewrite app_nil_r.
Qed.

(** After the assembly the mapping is some mapping with the explicit
    arguments written over it: the caller's, or the caller's with the
    parsed schema. *)
Lemma assemble_config_ok (append ignore_unknown autodetect_schema : bool)
    schema_json_path d w w1 :
  assemble_config append ignore_unknown autodetect_schema
    schema_json_path d w = (Ok (), w1) →
  (∀ d', d' ≠ d → deref w1 d' = deref w d') ∧
  ∃ m, deref w1 d = with_arguments append ignore_unknown autodetect_schema m ∧
    (m = deref w d ∨
     ∃ p fields s', truthy_path schema_json_path = Some p
       ∧ Client_schema_from_json p (svc w) = (Ok fields, s')
       ∧ m = <["schema" := VSchema fields]> (deref w d)).
Proof.
  rewrite assemble_config_run.
  destruct (truthy_path schema_json_path) as [p|] eqn:Ht; cbn zeta.
  - destruct (Client_schema_from_json p (svc w)) as [[fields|e] s'] eqn:Hp.
    + intros [= <-]. split.
      { intros d' Hd. by rewrite deref_store_ne. }
      eexists. split; [apply deref_store_eq|]. right.
      by exists p, fields, s'.
    + destruct (is_Exception e); [|done]. intros [= <-]. split.
      { intros d' Hd. by rewrite deref_store_ne. }
      eexists. split; [apply deref_store_eq|]. by left.
  - intros [= <-]. split.
    { intros d' Hd. by rewrite deref_store_ne. }
    eexists. split; [apply deref_store_eq|]. by left.
Qed.

Lemma with_arguments_other (append ignore_unknown autodetect_schema : bool)
    m k :
  k ≠ "autodetect" → k ≠ "ignore_unknown_values" → k ≠ "source_format" →
  k ≠ "write_disposition" →
  with_arguments append ignore_unknown autodetect_schema m !! k = m !! k.
Proof.
  intros. unfold with_arguments. by rewrite !lookup_insert_ne.
Qed.

Section OneCall.
Variables (bucket_name blob_name bq_project dataset table : string)
          (append ignore_unknown autodetect_schema : bool)
          (schema_json_path : option string) (await_result : bool)
          (config_params job_params : option ref).

Let cp := default Defaults.upload_gcs_json_config_params config_params.
Let jp := default Defaults.upload_gcs_json_job_params job_params.
Let source_uri := "gs://" +:+ bucket_name +:+ "/" +:+ blob_name.
Let table_ref := bq_project +:+ "." +:+ dataset +:+ "." +:+ table.
Let upload : M S unit :=
  upload_gcs_json bucket_name blob_name bq_project dataset table
    append ignore_unknown autodetect_schema schema_json_path await_result
    config_params job_params.
Let assemble : M S unit :=
  assemble_config append ignore_unknown autodetect_schema
    schema_json_path cp.

(** A run is an assembly that raised, or an assembly followed by a
    submission. *)
Lemma upload_gcs_json_inv w r w' :
  upload w = (r, w') →
  (∃ e, assemble w = (Raise e, w') ∧ r = Raise e
        ∧ made upload w = schema_calls schema_json_path) ∨
  (∃ w1, assemble w = (Ok (), w1)
         ∧ calls w1 = calls w ++ schema_calls schema_json_path
         ∧ submit_assembled await_result source_uri table_ref cp jp w1
           = (r, w')).
Proof.
  intros Hrun. pose proof Hrun as Hrun'.
  unfold upload, upload_gcs_json in Hrun.
  fold cp jp source_uri table_ref in Hrun. fold assemble in Hrun.
  pose proof (assemble_config_calls append ignore_unknown
                autodetect_schema schema_json_path cp w) as Hcalls.
  fold assemble in Hcalls.
  apply bind_inv in Hrun as [([] & w1 & Ha & Hrun)|(e & Ha & ->)];
    rewrite Ha in Hcalls; cbn [snd] in Hcalls.
  - right. eauto.
  - left. exists e. split; [done|]. split; [done|].
    apply made_app. by rewrite Hrun'.
Qed.

(** Every job config the call builds is built from the config
    mapping as the assembly left it; when one dictionary serves as
    both mappings, [source_uris] and [destination] are in it too. *)
Lemma upload_gcs_json_LoadJobConfig w kw :
  Call_LoadJobConfig kw ∈ made upload w →
  ∃ w1, assemble w = (Ok (), w1) ∧
    (cp ≠ jp → kw = deref w1 cp) ∧
    ∀ k, k ≠ "source_uris" → k ≠ "destination" →
         kw !! k = deref w1 cp !! k.
Proof.
  destruct (upload w) as [r w'] eqn:Hrun. intros Hin.
  apply upload_gcs_json_inv in Hrun as Hinv.
  destruct Hinv as [(e & _ & _ & Hm)|(w1 & Ha & Hc1 & Hsub)].
  { rewrite Hm in Hin. unfold schema_calls in Hin.
    destruct (truthy_path _);
      repeat (apply elem_of_cons in Hin as [?|Hin]; [done|]);
      by apply elem_of_nil in Hin. }
  exists w1. split; [done|].
  apply submit_assembled_inv in Hsub as [_ Hsub].
  destruct (Client_get_table table_ref (svc w1)) as [[t|e] s2].
  - cbv zeta in Hsub. destruct Hsub as (cs & Hcs & Hcases).
    set (kwc := if decide (cp = jp) then _ else _) in *.
    assert (made upload w
            = schema_calls schema_json_path
              ++ Call_get_table table_ref :: cs) as Hm.
    { apply made_app. rewrite Hrun. cbn [snd].
      by rewrite Hcs, Hc1, <- app_assoc. }
    rewrite Hm in Hin. clear Hm.
    assert (kw = kwc) as ->.
    { apply elem_of_app in Hin as [Hin|Hin].
      { unfold schema_calls in Hin. destruct (truthy_path _);
          repeat (apply elem_of_cons in Hin as [?|Hin]; [done|]);
          by apply elem_of_nil in Hin. }
      apply elem_of_cons in Hin as [?|Hin]; [done|].
      destruct Hcases as [(-> & _)|[(_ & e & _ & -> & _)
                                   |(_ & c & cs' & _ & -> & _ & Hcs')]].
      - by apply elem_of_nil in Hin.
      - apply list_elem_of_singleton in Hin. by injection Hin.
      - apply elem_of_cons in Hin as [Hin|Hin]; [by injection Hin|].
        apply Hcs' in Hin as [?|[j ?]]; done. }
    unfold kwc. split.
    + intros Hne. by case_decide.
    + intros k Hk1 Hk2. case_decide as Hd; [|done].
      rewrite !lookup_insert_ne by done. by rewrite Hd.
  - destruct Hsub as (_ & Hcs & _).
    assert (made upload w
            = schema_calls schema_json_path ++ [Call_get_table table_ref])
      as Hm.
    { apply made_app. rewrite Hrun. cbn [snd].
      by rewrite Hcs, Hc1, <- app_assoc. }
    rewrite Hm in Hin.
    apply elem_of_app in Hin as [Hin|Hin].
    { unfold schema_calls in Hin. destruct (truthy_path _);
        repeat (apply elem_of_cons in Hin as [?|Hin]; [done|]);
        by apply elem_of_nil in Hin. }
    apply list_elem_of_singleton in Hin. done.
Qed.

Lemma not_in_schema_calls c :
  (∀ p, c ≠ Call_schema_from_json p) → c ∉ schema_calls schema_json_path.
Proof.
  intros Hc Hin. unfold schema_calls in Hin.
  destruct (truthy_path _) as [p|].
  - apply list_elem_of_singleton in Hin. by eapply Hc.
  - by apply elem_of_nil in Hin.
Qed.

(** Once the assembly is through, the calls of the whole run are
    those of the schema block, the table lookup, and what the
    submission adds. *)
Lemma upload_gcs_json_after_assembly w w1 :
  assemble w = (Ok (), w1) →
  let r := (upload w).1 in
  let w' := (upload w).2 in
  let jp2 := <["source_uris" := VStr source_uri]> (deref w1 jp) in
  (∀ d, d ≠ jp → deref w' d = deref w1 d) ∧
  match Client_get_table table_ref (svc w1) with
  | (Raise e, _) =>
      r = Raise e
      ∧ made upload w
        = schema_calls schema_json_path ++ [Call_get_table table_ref]
      ∧ deref w' jp = jp2
  | (Ok t, _) =>
      let jp3 := <["destination" := VTable t]> jp2 in
      let kwc := if decide (cp = jp) then jp3 else deref w1 cp in
      ∃ cs, made upload w
            = schema_calls schema_json_path
              ++ Call_get_table table_ref :: cs ∧
        ((cs = [] ∧ is_Some (kwc !! "self") ∧ deref w' jp = jp3
            ∧ r = Raise (TypeError_multiple_values "self"))
         ∨ (kwc !! "self" = None ∧
            ∃ e, LoadJobConfig kwc = Raise e
                 ∧ cs = [Call_LoadJobConfig kwc]
                 ∧ deref w' jp = jp3 ∧ r = Raise e)
         ∨ (kwc !! "self" = None ∧
            ∃ c cs', LoadJobConfig kwc = Ok c
                 ∧ cs = Call_LoadJobConfig kwc :: cs'
                 ∧ deref w' jp = <["job_config" := c]> jp3
                 ∧ ∀ x, x ∈ cs' →
                     x = Call_load_table_from_uri
                           (<["job_config" := c]> jp3)
                     ∨ ∃ j, x = Call_result j))
  end.
Proof.
  intros Ha r w' jp2.
  destruct (upload w) as [r0 w0] eqn:Hrun. cbn [fst snd] in r, w'.
  subst r w'.
  apply upload_gcs_json_inv in Hrun as Hinv.
  destruct Hinv as [(e & Ha' & _)|(w1' & Ha' & Hc1 & Hsub)];
    rewrite Ha in Ha'; [done|]. injection Ha' as <-.
  apply submit_assembled_inv in Hsub as [Hother Hsub].
  split; [done|]. fold jp2 in Hsub.
  destruct (Client_get_table table_ref (svc w1)) as [[t|e] s2].
  - cbv zeta in Hsub |- *. destruct Hsub as (cs & Hcs & Hcases).
    exists cs. split; [|done].
    apply made_app. rewrite Hrun. cbn [snd].
    by rewrite Hcs, Hc1, <- app_assoc.
  - destruct Hsub as (-> & Hcs & Hjp). split; [done|]. split; [|done].
    apply made_app. rewrite Hrun. cbn [snd].
    by rewrite Hcs, Hc1, <- app_assoc.
Qed.

(** *** The job parameters *)

(** C8. The mapping a load is submitted with carries [source_uris] =
    [gs://bucket/blob], [destination] = the table the handle
    returned for [project.dataset.table], and [job_config] = the
    object [LoadJobConfig] returned for the assembled config mapping;
    the three are written over whatever the caller's [job_params]
    held, and the other keys are the caller's. *)
Theorem upload_gcs_json_job_parameters w kw :
  Call_load_table_from_uri kw ∈ made upload w →
  ∃ w1 t s2 kwc job_config,
    assemble w = (Ok (), w1)
    ∧ Client_get_table table_ref (svc w1) = (Ok t, s2)
    ∧ Call_LoadJobConfig kwc ∈ made upload w
    ∧ (cp ≠ jp → kwc = deref w1 cp)
    ∧ (∀ k, k ≠ "source_uris" → k ≠ "destination" →
            kwc !! k = deref w1 cp !! k)
    ∧ LoadJobConfig kwc = Ok job_config
    ∧ kw !! "source_uris" = Some (VStr source_uri)
    ∧ kw !! "destination" = Some (VTable t)
    ∧ kw !! "job_config" = Some job_config
    ∧ ∀ k, k ≠ "source_uris" → k ≠ "destination" → k ≠ "job_config" →
           kw !! k = deref w1 jp !! k.
Proof.
  intros Hin.
  destruct (assemble w) as [[[]|e] w1] eqn:Ha; last first.
  { destruct (upload w) as [r w'] eqn:Hrun.
    apply upload_gcs_json_inv in Hrun as Hinv.
    destruct Hinv as [(e' & _ & _ & Hm)|(w1' & Ha' & _)];
      [|by rewrite Ha in Ha'].
    rewrite Hm in Hin. by apply not_in_schema_calls in Hin. }
  pose proof (upload_gcs_json_after_assembly w w1 Ha) as [_ Hrun].
  cbv zeta in Hrun.
  destruct (Client_get_table table_ref (svc w1)) as [[t|e] s2] eqn:Hg.
  - destruct Hrun as (cs & Hm & Hcases).
    set (jp3 := <["destination" := VTable t]> _) in *.
    set (kwc := if decide (cp = jp) then _ else _) in *.
    rewrite Hm in Hin.
    apply elem_of_app in Hin as [Hin|Hin];
      [by apply not_in_schema_calls in Hin|].
    apply elem_of_cons in Hin as [?|Hin]; [done|].
    destruct Hcases as [(-> & _)|[(_ & e & _ & -> & _)
                                 |(_ & c & cs' & Hc & -> & _ & Hcs')]].
    { by apply elem_of_nil in Hin. }
    { apply list_elem_of_singleton in Hin. done. }
    apply elem_of_cons in Hin as [?|Hin]; [done|].
    apply Hcs' in Hin as [[= ->]|[j ?]]; [|done].
    exists w1, t, s2, kwc, c. split; [done|]. split; [done|].
    split. { rewrite Hm. apply elem_of_app. right. right. left. }
    split. { intros Hne. unfold kwc. by case_decide. }
    split.
    { intros k Hk1 Hk2. unfold kwc, jp3. case_decide as Hd; [|done].
      rewrite !lookup_insert_ne by done. by rewrite Hd. }
    split; [done|]. unfold jp3.
    split; [lookup_key|]. split; [lookup_key|]. split; [lookup_key|].
    intros k Hk1 Hk2 Hk3. lookup_key.
  - destruct Hrun as (_ & Hm & _). rewrite Hm in Hin.
    apply elem_of_app in Hin as [Hin|Hin];
      [by apply not_in_schema_calls in Hin|].
    apply list_elem_of_singleton in Hin. done.
Qed.

(** *** Order of the calls *)

Lemma before_in_prefix {A} (l1 l2 pre post : list A) (g x : A) :
  l1 ++ g :: l2 = pre ++ x :: post → x ∉ l1 → x ≠ g → g ∈ pre.
Proof.
  revert pre. induction l1 as [|a l1 IH]; intros [|b pre] Heq Hx Hg;
    simplify_eq/=.
  - left.
  - exfalso. apply Hx. left.
  - right. eapply IH; [done| |done]. intros ?. apply Hx. by right.
Qed.

(** C10. In every run the table lookup for [project.dataset.table]
    comes before any load submission; and when that lookup raises,
    the call raises the same exception, the lookup is the last call
    made and no load is submitted, whatever [autodetect_schema] is. *)
Theorem upload_gcs_json_resolves_destination_first w :
  (∀ pre kw post,
     made upload w = pre ++ Call_load_table_from_uri kw :: post →
     Call_get_table table_ref ∈ pre) ∧
  ∀ w1 e s2,
    assemble w = (Ok (), w1) →
    Client_get_table table_ref (svc w1) = (Raise e, s2) →
    (upload w).1 = Raise e
    ∧ made upload w
      = schema_calls schema_json_path ++ [Call_get_table table_ref]
    ∧ ∀ kw, Call_load_table_from_uri kw ∉ made upload w.
Proof.
  split.
  - intros pre kw post Hm.
    assert (Call_load_table_from_uri kw ∈ made upload w) as Hin.
    { rewrite Hm. apply elem_of_app. right. left. }
    destruct (assemble w) as [[[]|e] w1] eqn:Ha; last first.
    { destruct (upload w) as [r w'] eqn:Hrun.
      apply upload_gcs_json_inv in Hrun as Hinv.
      destruct Hinv as [(e' & _ & _ & Hm')|(w1' & Ha' & _)];
        [|by rewrite Ha in Ha'].
      rewrite Hm' in Hin. by apply not_in_schema_calls in Hin. }
    pose proof (upload_gcs_json_after_assembly w w1 Ha) as [_ Hrun].
    cbv zeta in Hrun.
    destruct (Client_get_table table_ref (svc w1)) as [[t|e] s2].
    + destruct Hrun as (cs & Hm' & _). rewrite Hm' in Hm.
      eapply before_in_prefix; [exact Hm| |done].
      by apply not_in_schema_calls.
    + destruct Hrun as (_ & Hm' & _). rewrite Hm' in Hin.
      apply elem_of_app in Hin as [Hin|Hin];
        [by apply not_in_schema_calls in Hin|].
      by apply list_elem_of_singleton in Hin.
  - intros w1 e s2 Ha Hg.
    pose proof (upload_gcs_json_after_assembly w w1 Ha) as [_ Hrun].
    cbv zeta in Hrun. rewrite Hg in Hrun. destruct Hrun as (Hr & Hm & _).
    split; [done|]. split; [done|]. intros kw Hin. rewrite Hm in Hin.
    apply elem_of_app in Hin as [Hin|Hin];
      [by apply not_in_schema_calls in Hin|].
    by apply list_elem_of_singleton in Hin.
Qed.

(** *** A schema file that cannot be parsed *)

(** C4, as the code has it. When the schema file is given and parsing
    it raises an [Exception], the call goes on exactly as a call
    without [schema_json_path] would from there: nothing is raised
    for the parse failure, and the [schema] key of the config mapping
    is left as the caller's mapping had it, absent if it was absent. *)
Theorem upload_gcs_json_schema_parse_failure w p e s' :
  truthy_path schema_json_path = Some p →
  Client_schema_from_json p (svc w) = (Raise e, s') →
  is_Exception e = true →
  let w_failed :=
    World (heap w)
      (logs w ++ schema_preamble autodetect_schema
       ++ [(WARNING, Msg ("Failed to build schema: " +:+ type_name e
                          +:+ ": " +:+ str_exn e))])
      (calls w ++ [Call_schema_from_json p]) s' in
  upload w
  = upload_gcs_json bucket_name blob_name bq_project dataset table
      append ignore_unknown autodetect_schema None await_result
      config_params job_params w_failed
  ∧ (∃ w1, assemble w = (Ok (), w1)
           ∧ deref w1 cp !! "schema" = deref w cp !! "schema")
  ∧ ∀ kw, Call_LoadJobConfig kw ∈ made upload w →
          kw !! "schema" = deref w cp !! "schema".
Proof.
  intros Ht Hp He w_failed.
  assert (assemble w
          = (Ok (), store w_failed cp
                      (with_arguments append ignore_unknown
                         autodetect_schema (deref w cp)))) as Ha.
  { unfold assemble. rewrite assemble_config_run, Ht. cbn zeta.
    rewrite Hp, He. unfold w_failed. by rewrite <- app_assoc. }
  split; [|split].
  - unfold upload, upload_gcs_json. fold cp jp source_uri table_ref.
    fold assemble. unfold bind at 1. rewrite Ha.
    unfold bind at 1. by rewrite assemble_config_run.
  - eexists. split; [exact Ha|].
    rewrite deref_store_eq. by apply with_arguments_other.
  - intros kw Hin.
    apply upload_gcs_json_LoadJobConfig in Hin as (w1 & Ha' & _ & Hk).
    fold assemble in Ha'. rewrite Ha in Ha'. injection Ha' as <-.
    rewrite Hk by done. rewrite deref_store_eq.
    by apply with_arguments_other.
Qed.

(** What the call leaves in the store: [source_uris] in the job
    parameters, and under every key but the three of the job
    parameters what the assembly left. *)
Lemma upload_gcs_json_final_store w w1 :
  assemble w = (Ok (), w1) →
  deref (upload w).2 jp !! "source_uris" = Some (VStr source_uri) ∧
  ∀ d k, k ≠ "source_uris" → k ≠ "destination" → k ≠ "job_config" →
         deref (upload w).2 d !! k = deref w1 d !! k.
Proof.
  intros Ha.
  pose proof (upload_gcs_json_after_assembly w w1 Ha) as [Hother Hrun].
  cbv zeta in Hrun, Hother.
  assert (∃ m, deref (upload w).2 jp = m
            ∧ m !! "source_uris" = Some (VStr source_uri)
            ∧ ∀ k, k ≠ "source_uris" → k ≠ "destination" →
                   k ≠ "job_config" → m !! k = deref w1 jp !! k)
    as (m & Hm & Hsrc & Hk).
  { destruct (Client_get_table table_ref (svc w1)) as [[t|e] s2].
    - destruct Hrun as (cs & _ & [(_ & _ & -> & _)
        |[(_ & e & _ & _ & -> & _)|(_ & c & cs' & _ & _ & -> & _)]]);
        eexists; (split; [done|]); split; try lookup_key;
        intros; lookup_key.
    - destruct Hrun as (_ & _ & ->).
      eexists; (split; [done|]); split; try lookup_key;
        intros; lookup_key. }
  split; [by rewrite Hm|]. intros d k Hk1 Hk2 Hk3.
  destruct (decide (d = jp)) as [->|Hd].
  - rewrite Hm. by apply Hk.
  - by rewrite Hother.
Qed.

(** *** The config mapping *)

(** Unless the schema parse is interrupted, the assembly runs to its
    end. *)
Lemma assemble_config_completes w :
  (∀ p e s', truthy_path schema_json_path = Some p →
     Client_schema_from_json p (svc w) = (Raise e, s') →
     is_Exception e = true) →
  ∃ w1, assemble w = (Ok (), w1).
Proof.
  intros Hexn. unfold assemble. rewrite assemble_config_run.
  destruct (truthy_path schema_json_path) as [p|] eqn:Ht; cbn zeta;
    [|eauto].
  destruct (Client_schema_from_json p (svc w)) as [[fields|e] s'] eqn:Hp;
    [eauto|].
  rewrite (Hexn p e s') by done. eauto.
Qed.

(** A key the assembly left in the config mapping, other than the three
    of the job parameters: the call leaves it in the store, every job
    config is built with it, and a call that returns has built one. *)
Lemma upload_gcs_json_key_of_config w w1 k v :
  assemble w = (Ok (), w1) →
  deref w1 cp !! k = Some v →
  k ≠ "source_uris" → k ≠ "destination" → k ≠ "job_config" →
  deref (upload w).2 cp !! k = Some v
  ∧ (∀ kw, Call_LoadJobConfig kw ∈ made upload w → kw !! k = Some v)
  ∧ ((upload w).1 = Ok () →
     ∃ kw, Call_LoadJobConfig kw ∈ made upload w ∧ kw !! k = Some v).
Proof.
  intros Ha Hv Hk1 Hk2 Hk3. split; [|split].
  - destruct (upload_gcs_json_final_store w w1 Ha) as [_ Hkeep].
    by rewrite Hkeep.
  - intros kw Hin.
    apply upload_gcs_json_LoadJobConfig in Hin as (w1' & Ha' & _ & Hk).
    rewrite Ha in Ha'. injection Ha' as <-. by rewrite Hk.
  - intros Hok.
    pose proof (upload_gcs_json_after_assembly w w1 Ha) as [_ Hrun].
    cbv zeta in Hrun. rewrite Hok in Hrun.
    destruct (Client_get_table table_ref (svc w1)) as [[t|e] s2];
      [|by destruct Hrun].
    destruct Hrun as (cs & Hm & [(_ & _ & _ & ?)
      |[(_ & e & _ & _ & _ & ?)|(_ & c & cs' & _ & -> & _)]]);
      [done|done|].
    eexists. split.
    + rewrite Hm. apply elem_of_app. right.
      apply list_elem_of_further, list_elem_of_here.
    + case_decide as Hd; [|done].
      rewrite !lookup_insert_ne by done. by rewrite <- Hd.
Qed.

(** The same for a key that lines 123-131 assign, on any call. *)
Lemma upload_gcs_json_explicit_key w k v :
  (∀ m, with_arguments append ignore_unknown autodetect_schema m !! k
        = Some v) →
  k ≠ "source_uris" → k ≠ "destination" → k ≠ "job_config" →
  ((∀ p e s', truthy_path schema_json_path = Some p →
      Client_schema_from_json p (svc w) = (Raise e, s') →
      is_Exception e = true) →
   deref (upload w).2 cp !! k = Some v)
  ∧ (∀ kw, Call_LoadJobConfig kw ∈ made upload w → kw !! k = Some v)
  ∧ ((upload w).1 = Ok () →
     ∃ kw, Call_LoadJobConfig kw ∈ made upload w ∧ kw !! k = Some v).
Proof.
  intros Hv Hk1 Hk2 Hk3.
  destruct (assemble w) as [[[]|e] w1] eqn:Ha.
  - pose proof Ha as (_ & m & Hm & _)%assemble_config_ok.
    destruct (upload_gcs_json_key_of_config w w1 k v Ha) as (H1 & H2 & H3);
      [by rewrite Hm|done..|].
    by repeat split.
  - split; [|split].
    + intros Hexn. apply assemble_config_completes in Hexn as [w1' Ha'].
      by rewrite Ha in Ha'.
    + intros kw Hin.
      apply upload_gcs_json_LoadJobConfig in Hin as (w1' & Ha' & _).
      by rewrite Ha in Ha'.
    + intros Hok. destruct (upload w) as [r w'] eqn:Hrun.
      cbn [fst] in Hok. subst r.
      apply upload_gcs_json_inv in Hrun
        as [(e' & _ & ? & _)|(w1' & Ha' & _)]; [done|].
      by rewrite Ha in Ha'.
Qed.

(** C1. On every call, [write_disposition] is [WRITE_APPEND] when
    [append] is true and [WRITE_TRUNCATE] when it is false, whatever
    the caller's [config_params] held under that key: in the config
    mapping the call leaves behind (unless the schema parse was
    interrupted by something that is not an [Exception], which ends
    the call before line 123), in every job config the call builds,
    and a call that returns has built one. *)
Theorem upload_gcs_json_write_disposition w :
  let expected := if append then WriteDisposition.WRITE_APPEND
                  else WriteDisposition.WRITE_TRUNCATE in
  ((∀ p e s', truthy_path schema_json_path = Some p →
      Client_schema_from_json p (svc w) = (Raise e, s') →
      is_Exception e = true) →
   deref (upload w).2 cp !! "write_disposition" = Some expected)
  ∧ (∀ kw, Call_LoadJobConfig kw ∈ made upload w →
           kw !! "write_disposition" = Some expected)
  ∧ ((upload w).1 = Ok () →
     ∃ kw, Call_LoadJobConfig kw ∈ made upload w
           ∧ kw !! "write_disposition" = Some expected).
Proof.
  intros expected. apply upload_gcs_json_explicit_key; [|done..].
  intros m. unfold with_arguments. lookup_key.
Qed.

(** C2. On every call, [source_format] is newline-delimited JSON,
    [ignore_unknown_values] is the [ignore_unknown] argument and
    [autodetect] is the [autodetect_schema] argument, whatever the
    caller's [config_params] held under those keys: in the config
    mapping the call leaves behind (unless the schema parse was
    interrupted by something that is not an [Exception]), in every job
    config the call builds, and a call that returns has built one. *)
Theorem upload_gcs_json_explicit_arguments w :
  let reflects (kw : gmap string value) :=
    kw !! "source_format" = Some SourceFormat.NEWLINE_DELIMITED_JSON
    ∧ kw !! "ignore_unknown_values" = Some (VBool ignore_unknown)
    ∧ kw !! "autodetect" = Some (VBool autodetect_schema) in
  ((∀ p e s', truthy_path schema_json_path = Some p →
      Client_schema_from_json p (svc w) = (Raise e, s') →
      is_Exception e = true) →
   reflects (deref (upload w).2 cp))
  ∧ (∀ kw, Call_LoadJobConfig kw ∈ made upload w → reflects kw)
  ∧ ((upload w).1 = Ok () →
     ∃ kw, Call_LoadJobConfig kw ∈ made upload w ∧ reflects kw).
Proof.
  intros reflects.
  destruct (upload_gcs_json_explicit_key w "source_format"
              SourceFormat.NEWLINE_DELIMITED_JSON) as (Hf1 & Hf2 & _);
    [intros m; unfold with_arguments; lookup_key|done..|].
  destruct (upload_gcs_json_explicit_key w "ignore_unknown_values"
              (VBool ignore_unknown)) as (Hi1 & Hi2 & _);
    [intros m; unfold with_arguments; lookup_key|done..|].
  destruct (upload_gcs_json_explicit_key w "autodetect"
              (VBool autodetect_schema)) as (Ha1 & Ha2 & Ha3);
    [intros m; unfold with_arguments; lookup_key|done..|].
  unfold reflects. split; [|split].
  - intros Hexn. auto.
  - intros kw Hin. auto.
  - intros Hok. destruct (Ha3 Hok) as (kw & Hin & _). exists kw. auto.
Qed.
End OneCall.
End UploadRuns.

(** ** Claims about [query] *)

(** Membership in a list of known shape, case by case. *)
Ltac in_cases H :=
  repeat first
    [ apply elem_of_nil in H; destruct H
    | apply elem_of_app in H as [H|H]
    | apply elem_of_cons in H as [H|H] ];
  try discriminate H.

Section QueryClaims.
Context {S : Type} `{!BigQuerySDK S}.
Implicit Types (w : world S) (d : gmap string value).

Lemma query_QueryJobConfig (q : string) qc (await_result : bool) w kw :
  Call_QueryJobConfig kw ∈ made (query q qc await_result) w →
  kw = assembled_query_config await_result
         (deref w (default Defaults.query_query_config qc)).
Proof.
  destruct (query q qc await_result w) as [r w'] eqn:Hrun. intros Hin.
  unfold made in Hin. rewrite Hrun in Hin. cbn [snd] in Hin.
  apply query_inv in Hrun as (_ & _ & cs & Hcs & Hcases).
  rewrite Hcs, drop_app_length in Hin. clear Hcs.
  destruct Hcases as [(_ & e & _ & _ & ->)
                     |(config & pre & Hpre & rq & sq & _ & Hcases)].
  { in_cases Hin. by injection Hin. }
  assert (Call_QueryJobConfig kw ∈ pre) as Hin'.
  { destruct rq as [job|e].
    - destruct await_result.
      + destruct Hcases as ([results|e] & sr & _ & Hcases).
        * destruct Hcases as [-> _]. by in_cases Hin.
        * destruct Hcases as [_ ->]. by in_cases Hin.
      + destruct Hcases as [_ ->]. by in_cases Hin.
    - destruct Hcases as [_ ->]. by in_cases Hin. }
  destruct Hpre as [(_ & _ & ->)|(_ & c & _ & _ & ->)]; in_cases Hin'.
  by injection Hin'.
Qed.

(** The calls of a run: the config constructor when the mapping is not
    empty, then the submission, then what awaiting adds. *)
Lemma query_calls (q : string) qc (await_result : bool) w :
  let d := assembled_query_config await_result
             (deref w (default Defaults.query_query_config qc)) in
  let run := query q qc await_result in
  deref (run w).2 (default Defaults.query_query_config qc) = d ∧
  ((size d ≠ 0 ∧ (∃ e, QueryJobConfig d = Raise e ∧ (run w).1 = Raise e)
    ∧ made run w = [Call_QueryJobConfig d]) ∨
   ∃ config pre tail,
     made run w = pre ++ Call_query q config :: tail
     ∧ ((size d = 0 ∧ config = None ∧ pre = []) ∨
        (size d ≠ 0 ∧ ∃ c, QueryJobConfig d = Ok c ∧ config = Some c
                           ∧ pre = [Call_QueryJobConfig d]))
     ∧ (∀ x, x ∈ tail → (∃ j, x = Call_result j) ∨ ∃ it, x = Call_len it)
     ∧ (await_result = false →
        tail = [] ∧ ((run w).1 = Ok None ∨ ∃ e, (run w).1 = Raise e))).
Proof.
  intros d run. unfold run.
  destruct (query q qc await_result w) as [r w'] eqn:Hrun.
  pose proof Hrun as Hrun'.
  apply query_inv in Hrun as (Hd & _ & cs & Hcs & Hcases).
  fold d in Hd, Hcases. split; [done|].
  assert (made (query q qc await_result) w = cs) as ->.
  { apply made_app. by rewrite Hrun'. }
  clear Hcs Hrun'. cbn [fst].
  destruct Hcases as [(Hsz & e & Hq & -> & ->)
                     |(config & pre & Hpre & rq & sq & _ & Hcases)].
  { left. eauto. }
  right. exists config, pre.
  destruct rq as [job|e].
  - destruct await_result.
    + destruct Hcases as ([results|e] & sr & _ & Hcases).
      * destruct Hcases as [-> _].
        exists [Call_result job; Call_len results].
        split; [done|]. split; [done|]. split; [|done].
        intros x Hx. in_cases Hx; subst; eauto.
      * destruct Hcases as [_ ->]. exists [Call_result job].
        split; [done|]. split; [done|]. split; [|done].
        intros x Hx. in_cases Hx; subst; eauto.
    + destruct Hcases as [-> ->]. exists []. split; [done|].
      split; [done|]. split; [|eauto].
      intros x Hx. by in_cases Hx.
  - destruct Hcases as [-> ->]. exists []. split; [done|].
    split; [done|]. split; [|intros; eauto].
    intros x Hx. by in_cases Hx.
Qed.

(** C6. With [await_result] false and no [priority] in the caller's
    mapping, the assembled mapping has [priority] = [BATCH].  The
    handle is given a config object exactly when the assembled mapping
    is not empty, and that object is the one [QueryJobConfig] returns
    for the mapping; for an empty mapping the query is submitted with
    no config and the constructor is never called. *)
Theorem query_config_assembly (q : string) qc (await_result : bool) w :
  let qcr := default Defaults.query_query_config qc in
  let run := query q qc await_result in
  let d := deref (run w).2 qcr in
  d = assembled_query_config await_result (deref w qcr)
  ∧ (await_result = false → deref w qcr !! "priority" = None →
     d !! "priority" = Some (VStr "BATCH"))
  ∧ (∀ q' config, Call_query q' config ∈ made run w →
       q' = q ∧
       match config with
       | None => d = ∅
       | Some c => d ≠ ∅ ∧ QueryJobConfig d = Ok c
                   ∧ Call_QueryJobConfig d ∈ made run w
       end)
  ∧ (∀ kw, Call_QueryJobConfig kw ∈ made run w → kw = d ∧ d ≠ ∅)
  ∧ (d = ∅ → ∃ rest, made run w = Call_query q None :: rest)
  ∧ (d ≠ ∅ → ∃ rest, made run w = Call_QueryJobConfig d :: rest ∧
       ∀ c, QueryJobConfig d = Ok c →
            ∃ rest', rest = Call_query q (Some c) :: rest').
Proof.
  intros qcr run d.
  pose proof (query_calls q qc await_result w) as [Hd Hcalls].
  cbv zeta in Hd, Hcalls. fold qcr run in Hd, Hcalls. fold d in Hd.
  rewrite <- Hd in Hcalls. clear Hd.
  assert (d = assembled_query_config await_result (deref w qcr)) as Hd
    by (unfold d, run; apply (query_calls q qc await_result w)).
  split; [done|]. split.
  { intros -> Hnone. rewrite Hd. unfold assembled_query_config.
    rewrite bool_decide_eq_true_2 by done. apply lookup_insert_eq. }
  clearbody d run.
  assert (∀ m : gmap string value, size m = 0 ↔ m = ∅) as Hsize
    by (intros m; apply map_size_empty_iff).
  destruct Hcalls as [(Hsz & (e & He & _) & ->)
                     |(config & pre & tail & -> & Hpre & Htail & _)].
  { assert (d ≠ ∅) as Hne by (by rewrite <- Hsize).
    split; [intros q' config Hin; by in_cases Hin|].
    split; [intros kw Hin; in_cases Hin; by injection Hin as ->|].
    split; [done|]. intros _. eexists. split; [done|].
    intros c Hc. by rewrite Hc in He. }
  destruct Hpre as [(Hsz & -> & ->)|(Hsz & c & Hc & -> & ->)].
  - apply Hsize in Hsz. cbn [app]. split; [|split; [|split]].
    + intros q' config Hin. apply elem_of_cons in Hin as [[= -> ->]|Hin];
        [done|]. apply Htail in Hin as [[j ?]|[it ?]]; done.
    + intros kw Hin. apply elem_of_cons in Hin as [?|Hin]; [done|].
      apply Htail in Hin as [[j ?]|[it ?]]; done.
    + eauto.
    + done.
  - assert (d ≠ ∅) as Hne by (by rewrite <- Hsize).
    cbn [app]. split; [|split; [|split]].
    + intros q' config Hin. apply elem_of_cons in Hin as [?|Hin]; [done|].
      apply elem_of_cons in Hin as [[= -> ->]|Hin].
      * split; [done|]. split; [done|]. split; [done|]. left.
      * apply Htail in Hin as [[j ?]|[it ?]]; done.
    + intros kw Hin. apply elem_of_cons in Hin as [[= ->]|Hin]; [done|].
      apply elem_of_cons in Hin as [?|Hin]; [done|].
      apply Htail in Hin as [[j ?]|[it ?]]; done.
    + done.
    + intros _. eexists. split; [done|]. intros c' Hc'.
      rewrite Hc in Hc'. injection Hc' as <-. eauto.
Qed.

End QueryClaims.

(** ** One mapping, several calls *)

Section SharedMappings.
Context {S : Type} `{!BigQuerySDK S}.
Implicit Types (w : world S).

(** C9. The mappings are written to where they are.  After a call of
    [upload_gcs_json] that parsed a schema, the config mapping the
    caller passed (the default one when the argument is left out)
    holds the schema and the explicit arguments, and the job
    parameters hold [source_uris]; a later call on the same config
    mapping that gives no schema file builds its job config with that
    earlier schema.  Likewise a [query] that does not await writes
    [priority] = [BATCH] into the mapping it was given, and a later
    awaited query on the same mapping is configured with it. *)
Theorem mappings_are_mutated_in_place
    (bucket_name blob_name bq_project dataset table : string)
    (append ignore_unknown autodetect_schema : bool)
    (schema_json_path : option string) (await_result : bool)
    (bucket_name' blob_name' bq_project' dataset' table' : string)
    (append' ignore_unknown' autodetect_schema' : bool)
    (schema_json_path' : option string) (await_result' : bool)
    (config_params job_params job_params' : option ref)
    (q q' : string) (query_config : option ref)
    (w wq : world S) p fields s' :
  let cp := default Defaults.upload_gcs_json_config_params config_params in
  let jp := default Defaults.upload_gcs_json_job_params job_params in
  let qcr := default Defaults.query_query_config query_config in
  truthy_path schema_json_path = Some p →
  Client_schema_from_json p (svc w) = (Ok fields, s') →
  truthy_path schema_json_path' = None →
  deref wq qcr !! "priority" = None →
  let w1 := (upload_gcs_json bucket_name blob_name bq_project dataset table
               append ignore_unknown autodetect_schema schema_json_path
               await_result config_params job_params w).2 in
  let wq1 := (query q query_config false wq).2 in
  (deref w1 cp !! "schema" = Some (VSchema fields)
   ∧ deref w1 cp !! "autodetect" = Some (VBool autodetect_schema)
   ∧ deref w1 jp !! "source_uris"
     = Some (VStr ("gs://" +:+ bucket_name +:+ "/" +:+ blob_name)))
  ∧ (∀ kw,
       Call_LoadJobConfig kw ∈
         made (upload_gcs_json bucket_name' blob_name' bq_project' dataset'
                 table' append' ignore_unknown' autodetect_schema'
                 schema_json_path' await_result' config_params job_params')
              w1 →
       kw !! "schema" = Some (VSchema fields))
  ∧ deref wq1 qcr !! "priority" = Some (VStr "BATCH")
  ∧ (∀ kw, Call_QueryJobConfig kw ∈ made (query q' query_config true) wq1 →
           kw !! "priority" = Some (VStr "BATCH")).
Proof.
  intros cp jp qcr Ht Hp Ht' Hprio w1 wq1.
  (* the first upload *)
  assert (∃ w0, assemble_config append ignore_unknown autodetect_schema
                  schema_json_path cp w = (Ok (), w0)
                ∧ deref w0 cp !! "schema" = Some (VSchema fields)
                ∧ deref w0 cp !! "autodetect" = Some (VBool autodetect_schema))
    as (w0 & Ha & Hsch & Had).
  { rewrite assemble_config_run, Ht. cbn zeta. rewrite Hp.
    eexists. split; [done|]. rewrite deref_store_eq.
    unfold with_arguments. split; lookup_key. }
  pose proof (upload_gcs_json_final_store bucket_name blob_name bq_project
                dataset table append ignore_unknown autodetect_schema
                schema_json_path await_result config_params job_params
                w w0 Ha) as [Hsrc Hkeep].
  fold w1 cp jp in Hsrc, Hkeep.
  assert (deref w1 cp !! "schema" = Some (VSchema fields)) as Hsch1
    by (by rewrite Hkeep).
  split.
  { split; [done|]. split; [by rewrite Hkeep|done]. }
  split.
  { (* the second upload *)
    intros kw Hin.
    apply upload_gcs_json_LoadJobConfig in Hin as (w2 & Ha2 & _ & Hk).
    rewrite Hk by done. fold cp in Ha2 |- *.
    rewrite assemble_config_run, Ht' in Ha2. injection Ha2 as <-.
    rewrite deref_store_eq. by rewrite with_arguments_other. }
  (* the two queries *)
  pose proof (query_calls q query_config false wq) as [Hd _].
  cbv zeta in Hd. fold qcr wq1 in Hd.
  assert (deref wq1 qcr !! "priority" = Some (VStr "BATCH")) as Hb.
  { rewrite Hd. unfold assembled_query_config. cbn [negb andb].
    rewrite bool_decide_eq_true_2 by done. apply lookup_insert_eq. }
  split; [done|]. intros kw Hin.
  apply query_QueryJobConfig in Hin as ->. done.
Qed.
End SharedMappings.

(** ** The claims on the demo service *)

Lemma upload_gcs_json_write_disposition_witness :
  deref (DemoRuns.truncating_upload Demo.caller).2 7 !! "write_disposition"
  = Some WriteDisposition.WRITE_TRUNCATE
  ∧ ∃ kw, Call_LoadJobConfig kw ∈ made DemoRuns.truncating_upload Demo.caller
          ∧ kw !! "write_disposition" = Some WriteDisposition.WRITE_TRUNCATE.
Proof.
  pose proof (upload_gcs_json_write_disposition
                "bucket" "events.json" "proj" "ds" "events"
                false true false None true (Some 7) (Some 8)
                Demo.caller) as (Hstore & _ & Hbuilt).
  split.
  - apply Hstore. intros p e s' Ht. vm_compute in Ht. discriminate Ht.
  - apply Hbuilt. vm_compute. reflexivity.
Defined.

Lemma upload_gcs_json_explicit_arguments_witness :
  (deref (DemoRuns.callers_upload_with (Some "broken.json") Demo.caller).2 7
     !! "source_format" = Some SourceFormat.NEWLINE_DELIMITED_JSON
   ∧ deref (DemoRuns.callers_upload_with (Some "broken.json") Demo.caller).2 7
       !! "ignore_unknown_values" = Some (VBool true)
   ∧ deref (DemoRuns.callers_upload_with (Some "broken.json") Demo.caller).2 7
       !! "autodetect" = Some (VBool false))
  ∧ ∃ kw, Call_LoadJobConfig kw
            ∈ made (DemoRuns.callers_upload_with (Some "broken.json"))
                Demo.caller
          ∧ kw !! "source_format" = Some SourceFormat.NEWLINE_DELIMITED_JSON
          ∧ kw !! "ignore_unknown_values" = Some (VBool true)
          ∧ kw !! "autodetect" = Some (VBool false).
Proof.
  pose proof (upload_gcs_json_explicit_arguments
                "bucket" "events.json" "proj" "ds" "events"
                true true false (Some "broken.json") true (Some 7) (Some 8)
                Demo.caller) as (Hstore & _ & Hbuilt).
  split.
  - apply Hstore. intros p e s' Ht Hp.
    injection Ht as <-. vm_compute in Hp. injection Hp as <- _.
    reflexivity.
  - apply Hbuilt. vm_compute. reflexivity.
Defined.

Lemma upload_gcs_json_job_parameters_witness :
  Call_load_table_from_uri DemoRuns.truncating_kwargs
    ∈ made DemoRuns.truncating_upload Demo.caller
  ∧ DemoRuns.truncating_kwargs !! "source_uris"
    = Some (VStr "gs://bucket/events.json").
Proof.
  assert (Call_load_table_from_uri DemoRuns.truncating_kwargs
            ∈ made DemoRuns.truncating_upload Demo.caller) as Hin.
  { vm_compute. do 2 apply list_elem_of_further. apply list_elem_of_here. }
  split; [exact Hin|].
  destruct (upload_gcs_json_job_parameters
              "bucket" "events.json" "proj" "ds" "events"
              false true false None true (Some 7) (Some 8)
              Demo.caller DemoRuns.truncating_kwargs Hin)
    as (w1 & t & s2 & kwc & job_config & _ & _ & _ & _ & _ & _ & Hsrc & _).
  exact Hsrc.
Defined.

Lemma upload_gcs_json_resolves_destination_first_witness :
  (DemoRuns.upload_to_missing Demo.fresh).1
    = Raise (OtherException "NotFound" "Not found: Table proj.ds.missing")
  ∧ made DemoRuns.upload_to_missing Demo.fresh
    = [Call_get_table "proj.ds.missing"].
Proof.
  destruct (proj2 (upload_gcs_json_resolves_destination_first
                     "bucket" "events.json" "proj" "ds" "missing"
                     true true true None true None None Demo.fresh)
              (assemble_config true true true None 0 Demo.fresh).2
              (OtherException "NotFound" "Not found: Table proj.ds.missing")
              0)
    as (Hr & Hm & _).
  - vm_compute. reflexivity.
  - vm_compute. reflexivity.
  - split; [exact Hr|exact Hm].
Defined.

(** The caller's mapping names a schema, the schema file does not parse:
    the load is submitted, configured with the caller's schema. *)
Lemma parse_failure_keeps_callers_schema :
  ¬ parse_failure_leaves_no_schema
      "bucket" "events.json" "proj" "ds" "events" true true false
      (Some "broken.json") true (Some 7) (Some 8) Demo.caller.
Proof.
  intros Hclaim.
  specialize (Hclaim "broken.json"
                (OtherException "JSONDecodeError" "Expecting value") 0
                eq_refl eq_refl eq_refl
                (with_arguments true true false (deref Demo.caller 7))).
  assert (with_arguments true true false (deref Demo.caller 7) !! "schema"
          = Some (VStr "legacy")) as Hlegacy by (vm_compute; reflexivity).
  rewrite Hclaim in Hlegacy; [discriminate|].
  vm_compute. do 2 apply list_elem_of_further. apply list_elem_of_here.
Qed.

Lemma upload_gcs_json_schema_parse_failure_witness :
  DemoRuns.upload_with (Some "broken.json") Demo.fresh
  = DemoRuns.upload_with None
      (World (heap Demo.fresh)
         [(DEBUG, Msg "Trying to build schema...");
          (WARNING,
           Msg "Failed to build schema: JSONDecodeError: Expecting value")]
         [Call_schema_from_json "broken.json"] 0).
Proof.
  refine (proj1 (upload_gcs_json_schema_parse_failure
                   "bucket" "events.json" "proj" "ds" "events"
                   true true false (Some "broken.json") true None None
                   Demo.fresh "broken.json"
                   (OtherException "JSONDecodeError" "Expecting value") 0
                   _ _ _)).
  - vm_compute. reflexivity.
  - vm_compute. reflexivity.
  - vm_compute. reflexivity.
Defined.

Lemma mappings_are_mutated_in_place_witness :
  deref (DemoRuns.upload_with (Some "schema.json") Demo.fresh).2
        Defaults.upload_gcs_json_config_params !! "schema"
    = Some (VSchema Demo.events_schema)
  ∧ deref (query "UPDATE t SET x = 1" None false Demo.fresh).2
          Defaults.query_query_config !! "priority"
    = Some (VStr "BATCH").
Proof.
  destruct (mappings_are_mutated_in_place
              "bucket" "events.json" "proj" "ds" "events" true true false
              (Some "schema.json") true
              "bucket" "more.json" "proj" "ds" "events" true true false
              None true None None None
              "UPDATE t SET x = 1" "SELECT 1" None
              Demo.fresh Demo.fresh "schema.json" Demo.events_schema 0)
    as ((Hschema & _) & _ & Hbatch & _).
  - vm_compute. reflexivity.
  - vm_compute. reflexivity.
  - vm_compute. reflexivity.
  - vm_compute. reflexivity.
  - split; [exact Hschema|exact Hbatch].
Defined.



Lemma query_config_assembly_witness :
  deref (query "UPDATE t SET x = 1" None false Demo.fresh).2
        Defaults.query_query_config !! "priority"
  = Some (VStr "BATCH").
Proof.
  refine (proj1 (proj2 (query_config_assembly
                          "UPDATE t SET x = 1" None false Demo.fresh))
            _ _).
  - reflexivity.
  - vm_compute. reflexivity.
Defined.

(** ** The methods run forwards

    The runs of the helper methods and of the submission written out,
    for the statements that say what a call does rather than what a
    finished call must have done. *)

Section Forwards.
Context {S : Type} `{!BigQuerySDK S}.
Implicit Types (w : world S) (d : ref) (kwargs m : gmap string value).

Lemma build_load_job_config_run kwargs w :
  kwargs !! "self" = None →
  _build_load_job_config kwargs w
  = (LoadJobConfig kwargs,
     World (heap w) (logs w) (calls w ++ [Call_LoadJobConfig kwargs]) (svc w)).
Proof.
  intros Hself.
  destruct (_build_load_job_config kwargs w) as [r w'] eqn:Hrun.
  apply build_load_job_config_inv in Hrun
    as [([v Hv] & _)|(_ & -> & ->)]; [|done].
  by rewrite Hself in Hv.
Qed.

Lemma build_load_job_config_clash kwargs w :
  is_Some (kwargs !! "self") →
  _build_load_job_config kwargs w
  = (Raise (TypeError_multiple_values "self"), w).
Proof.
  intros [v Hv].
  destruct (_build_load_job_config kwargs w) as [r w'] eqn:Hrun.
  apply build_load_job_config_inv in Hrun
    as [(_ & -> & ->)|(Hnone & _)]; [done|].
  by rewrite Hnone in Hv.
Qed.

(** A mapping with [await_result] or [self] among its keys cannot be
    bound to [_submit_load_job]: nothing is submitted. *)
Lemma submit_load_job_clash await_result kwargs w :
  is_Some (kwargs !! "await_result") ∨ is_Some (kwargs !! "self") →
  ∃ n, _submit_load_job await_result kwargs w
       = (Raise (TypeError_multiple_values n), w).
Proof.
  intros Hclash. unfold _submit_load_job, bind.
  destruct (unpack ["await_result"; "self"] kwargs w) as [r w'] eqn:Hu.
  apply unpack_inv in Hu as [-> [[-> Hn]|(n & _ & _ & ->)]]; [|eauto].
  exfalso. destruct Hclash as [[v Hv]|[v Hv]].
  - rewrite Hn in Hv; [done|]. left.
  - rewrite Hn in Hv; [done|]. right. left.
Qed.

(** The submission of a mapping that binds, step by step. *)
Lemma submit_load_job_run await_result kwargs w :
  kwargs !! "await_result" = None → kwargs !! "self" = None →
  _submit_load_job await_result kwargs w =
  match Client_load_table_from_uri kwargs (svc w) with
  | (Raise e, s1) =>
      (Raise e,
       World (heap w) (logs w)
         (calls w ++ [Call_load_table_from_uri kwargs]) s1)
  | (Ok job, s1) =>
      if await_result then
        match Job_result job s1 with
        | (Ok _, s2) =>
            (Ok (),
             World (heap w) (logs w ++ [(INFO, Msg "Upload complete.")])
               (calls w ++ [Call_load_table_from_uri kwargs; Call_result job])
               s2)
        | (Raise e, s2) =>
            if is_BadRequest e then
              (Raise (SystemError
                 "Import failed with BadRequest exception. See error data in logs."),
               World (heap w)
                 (logs w ++ [(ERROR, MsgErrors (Job_errors job s2))])
                 (calls w ++ [Call_load_table_from_uri kwargs; Call_result job])
                 s2)
            else
              (Raise e,
               World (heap w) (logs w)
                 (calls w ++ [Call_load_table_from_uri kwargs; Call_result job])
                 s2)
        end
      else
        (Ok (),
         World (heap w) (logs w)
           (calls w ++ [Call_load_table_from_uri kwargs]) s1)
  end.
Proof.
  intros Ha Hs. unfold _submit_load_job. unfold bind at 1.
  assert (unpack ["await_result"; "self"] kwargs w = (Ok kwargs, w)) as ->.
  { destruct (unpack _ kwargs w) as [r w'] eqn:Hu.
    apply unpack_inv in Hu as [-> [[-> _]|(n & Hin & [v Hv] & _)]]; [done|].
    apply elem_of_cons in Hin as [->|Hin]; [by rewrite Ha in Hv|].
    apply list_elem_of_singleton in Hin as ->. by rewrite Hs in Hv. }
  unfold bind at 1, remote at 1.
  destruct (Client_load_table_from_uri kwargs (svc w)) as [[job|e] s1];
    [|done].
  destruct await_result.
  - unfold _monitor_job, bind, try_except, remote, errors, log, raise, ret.
    cbn [heap logs calls svc].
    destruct (Job_result job s1) as [[results|e] s2].
    + by rewrite <- app_assoc.
    + destruct (is_BadRequest e); by rewrite <- app_assoc.
  - done.
Qed.

(** The submission block once the table is found and the job config
    built: the parameters are stored, two lines are logged, and the rest
    is [_submit_load_job] on the parameters. *)
Lemma submit_assembled_run (await_result : bool) (source_uri table_ref : string)
    cp jp w t s2 c :
  Client_get_table table_ref (svc w) = (Ok t, s2) →
  let jp3 := <["destination" := VTable t]>
               (<["source_uris" := VStr source_uri]> (deref w jp)) in
  let kwc := if decide (cp = jp) then jp3 else deref w cp in
  kwc !! "self" = None →
  LoadJobConfig kwc = Ok c →
  let kwj := <["job_config" := c]> jp3 in
  submit_assembled await_result source_uri table_ref cp jp w =
  _submit_load_job await_result kwj
    (World (<[jp := kwj]> (heap w))
       (logs w ++ [(INFO, Msg ("Submitting job to upload [" +:+ source_uri
                               +:+ "] to [" +:+ table_ref +:+ "]..."));
                   (DEBUG, MsgDict "BigQuery load job params: " kwj)])
       (calls w ++ [Call_get_table table_ref; Call_LoadJobConfig kwc]) s2).
Proof.
  intros Hg jp3 kwc Hself Hc kwj.
  destruct w as [h lg cs s]. cbn [svc] in Hg.
  unfold submit_assembled.
  unfold bind at 1, setitem at 1, store at 1. cbn [heap logs calls svc].
  unfold bind at 1, remote at 1. cbn [heap logs calls svc]. rewrite Hg.
  unfold bind at 1, setitem at 1, store at 1, deref at 1.
  cbn [heap logs calls svc].
  rewrite lookup_insert_eq, insert_insert_eq. cbn [default from_option id].
  fold (deref (World h lg cs s) jp). fold jp3.
  unfold bind at 1, contents at 1, deref at 1. cbn [heap logs calls svc].
  assert (default ∅ (<[jp := jp3]> h !! cp) = kwc) as ->.
  { unfold kwc, deref; cbn [heap]. rewrite lookup_insert.
    case_decide; case_decide; by simplify_eq. }
  unfold bind at 1. rewrite build_load_job_config_run by done. rewrite Hc.
  cbn [heap logs calls svc].
  unfold bind at 1, setitem at 1, store at 1, deref at 1.
  cbn [heap logs calls svc].
  rewrite lookup_insert_eq, insert_insert_eq. cbn [default from_option id].
  fold kwj.
  unfold bind at 1, log at 1. cbn [heap logs calls svc].
  unfold bind at 1, contents at 1, deref at 1. cbn [heap logs calls svc].
  rewrite lookup_insert_eq. cbn [default from_option id].
  unfold bind at 1, log at 1. cbn [heap logs calls svc].
  rewrite <- !app_assoc. cbn [app].
  unfold bind at 1, ret. unfold deref at 1. cbn [heap].
  rewrite lookup_insert_eq. cbn [default from_option id].
  by destruct (_submit_load_job _ _ _) as [[[]|e] w'].
Qed.
End Forwards.

(** ** The log only grows *)

Section Logs.
Context {S : Type} `{!BigQuerySDK S}.
Implicit Types (w : world S).

Lemma appends_ret {A} (a : A) : appends_logs (ret (S := S) a).
Proof. intros w. exists []. by rewrite app_nil_r. Qed.

Lemma appends_raise {A} e : appends_logs (raise (S := S) (A := A) e).
Proof. intros w. exists []. by rewrite app_nil_r. Qed.

Lemma appends_log l m : appends_logs (log (S := S) l m).
Proof. intros w. by exists [(l, m)]. Qed.

Lemma appends_setitem d k v : appends_logs (setitem (S := S) d k v).
Proof. intros w. exists []. by rewrite app_nil_r. Qed.

Lemma appends_contents d : appends_logs (contents (S := S) d).
Proof. intros w. exists []. by rewrite app_nil_r. Qed.

Lemma appends_errors job : appends_logs (errors job).
Proof. intros w. exists []. by rewrite app_nil_r. Qed.

Lemma appends_remote {A} c (op : S → outcome A * S) :
  appends_logs (remote c op).
Proof.
  intros w. exists []. unfold remote.
  destruct (op (svc w)) as [r s']. by rewrite app_nil_r.
Qed.

Lemma appends_local {A} c (r : outcome A) : appends_logs (local (S := S) c r).
Proof. intros w. exists []. by rewrite app_nil_r. Qed.

Lemma appends_unpack named kwargs :
  appends_logs (unpack (S := S) named kwargs).
Proof.
  intros w. exists []. unfold unpack.
  destruct (filter _ named); by rewrite app_nil_r.
Qed.

Lemma appends_bind {A B} (m : M S A) (k : A → M S B) :
  appends_logs m → (∀ a, appends_logs (k a)) → appends_logs (bind m k).
Proof.
  intros Hm Hk w. unfold bind. destruct (Hm w) as [r1 H1].
  destruct (m w) as [[a|e] w1]; cbn [snd] in H1 |- *.
  - destruct (Hk a w1) as [r2 H2]. exists (r1 ++ r2).
    by rewrite H2, H1, app_assoc.
  - by exists r1.
Qed.

Lemma appends_try_except {A} (body : M S A) matches handler :
  appends_logs body → (∀ e, appends_logs (handler e)) →
  appends_logs (try_except body matches handler).
Proof.
  intros Hb Hh w. unfold try_except. destruct (Hb w) as [r1 H1].
  destruct (body w) as [[a|e] w1]; cbn [snd] in H1 |- *; [by exists r1|].
  destruct (matches e); [|by exists r1].
  destruct (Hh e w1) as [r2 H2]. exists (r1 ++ r2).
  by rewrite H2, H1, app_assoc.
Qed.

(** The steps of a method, one after the other. *)
Ltac appends :=
  repeat first
    [ apply appends_bind; [|intros ?]
    | apply appends_try_except; [|intros ?]
    | apply appends_ret | apply appends_raise | apply appends_log
    | apply appends_setitem | apply appends_contents | apply appends_errors
    | apply appends_remote | apply appends_local | apply appends_unpack
    | match goal with
      | |- appends_logs (if ?b then _ else _) => destruct b
      end ].

Lemma appends_submit_load_job (await_result : bool) kwargs :
  appends_logs (_submit_load_job (S := S) await_result kwargs).
Proof. unfold _submit_load_job, _monitor_job. appends. Qed.

Lemma appends_submit_assembled (await_result : bool)
    (source_uri table_ref : string) cp jp :
  appends_logs (submit_assembled (S := S) await_result source_uri table_ref
                  cp jp).
Proof.
  unfold submit_assembled, _build_load_job_config.
  appends.
Qed.
End Logs.

(** ** More about [upload_gcs_json] *)

Section UploadForwards.
Context {S : Type} `{!BigQuerySDK S}.
Implicit Types (w : world S) (d : ref) (m : gmap string value).

(** The assembly writes to the config mapping only, however it ends. *)
Lemma assemble_config_frame (append ignore_unknown autodetect_schema : bool)
    schema_json_path d w d' :
  d' ≠ d →
  deref (assemble_config append ignore_unknown autodetect_schema
           schema_json_path d w).2 d' = deref w d'.
Proof.
  intros Hd. rewrite assemble_config_run.
  destruct (truthy_path schema_json_path) as [p|]; cbn zeta.
  - destruct (Client_schema_from_json p (svc w)) as [[fields|e] s'].
    + cbn [snd]. by rewrite deref_store_ne.
    + destruct (is_Exception e); cbn [snd]; [|done].
      by rewrite deref_store_ne.
  - cbn [snd]. by rewrite deref_store_ne.
Qed.

(** The keys the assembly may write are five. *)
Lemma assemble_config_keeps (append ignore_unknown autodetect_schema : bool)
    schema_json_path d w w1 d' k :
  assemble_config append ignore_unknown autodetect_schema
    schema_json_path d w = (Ok (), w1) →
  k ≠ "schema" → k ≠ "write_disposition" → k ≠ "source_format" →
  k ≠ "ignore_unknown_values" → k ≠ "autodetect" →
  deref w1 d' !! k = deref w d' !! k.
Proof.
  intros Ha Hk1 Hk2 Hk3 Hk4 Hk5.
  apply assemble_config_ok in Ha as (Hother & m & Hm & Hcases).
  destruct (decide (d' = d)) as [->|Hd]; [|by rewrite Hother].
  rewrite Hm, with_arguments_other by done.
  destruct Hcases as [->|(p & fields & s' & _ & _ & ->)]; [done|].
  by rewrite lookup_insert_ne.
Qed.

Section OneCall.
Variables (bucket_name blob_name bq_project dataset table : string)
          (append ignore_unknown autodetect_schema : bool)
          (schema_json_path : option string) (await_result : bool)
          (config_params job_params : option ref).

Let cp := default Defaults.upload_gcs_json_config_params config_params.
Let jp := default Defaults.upload_gcs_json_job_params job_params.
Let source_uri := "gs://" +:+ bucket_name +:+ "/" +:+ blob_name.
Let table_ref := bq_project +:+ "." +:+ dataset +:+ "." +:+ table.
Let upload : M S unit :=
  upload_gcs_json bucket_name blob_name bq_project dataset table
    append ignore_unknown autodetect_schema schema_json_path await_result
    config_params job_params.
Let assemble : M S unit :=
  assemble_config append ignore_unknown autodetect_schema
    schema_json_path cp.

(** The job parameters once the three keys are written, and the config
    mapping the job config is built from. *)
Let jp3 (w1 : world S) (t : Table) : gmap string value :=
  <["destination" := VTable t]>
    (<["source_uris" := VStr source_uri]> (deref w1 jp)).
Let kwc (w1 : world S) (t : Table) : gmap string value :=
  if decide (cp = jp) then jp3 w1 t else deref w1 cp.
Let kwj (w1 : world S) (t : Table) (c : value) : gmap string value :=
  <["job_config" := c]> (jp3 w1 t).

(** The world in which the load is submitted. *)
Let submitting (w1 : world S) (t : Table) (c : value) (s2 : S) : world S :=
  World (<[jp := kwj w1 t c]> (heap w1))
    (logs w1 ++ [(INFO, Msg ("Submitting job to upload [" +:+ source_uri
                             +:+ "] to [" +:+ table_ref +:+ "]..."));
                 (DEBUG, MsgDict "BigQuery load job params: " (kwj w1 t c))])
    (calls w1 ++ [Call_get_table table_ref; Call_LoadJobConfig (kwc w1 t)]) s2.

(** With the config assembled, the table found and the job config built,
    what is left of the call is the submission of the job parameters. *)
Lemma upload_gcs_json_reaches_submission w w1 t s2 c :
  assemble w = (Ok (), w1) →
  Client_get_table table_ref (svc w1) = (Ok t, s2) →
  kwc w1 t !! "self" = None →
  LoadJobConfig (kwc w1 t) = Ok c →
  upload w = _submit_load_job await_result (kwj w1 t c) (submitting w1 t c s2)
  ∧ calls (submitting w1 t c s2)
    = calls w ++ schema_calls schema_json_path
      ++ [Call_get_table table_ref; Call_LoadJobConfig (kwc w1 t)].
Proof.
  intros Ha Hg Hself Hc. split.
  - unfold upload, upload_gcs_json. fold cp jp source_uri table_ref.
    fold assemble. unfold bind at 1. rewrite Ha.
    by apply submit_assembled_run.
  - pose proof (assemble_config_calls append ignore_unknown autodetect_schema
                  schema_json_path cp w) as Hcalls.
    fold assemble in Hcalls. rewrite Ha in Hcalls. cbn [snd] in Hcalls.
    unfold submitting. cbn [calls]. by rewrite Hcalls, <- app_assoc.
Qed.

(** *** The runs that reach the service *)

(** X1. A call that awaits and meets no failure: the handle is asked, in
    this order, to parse the schema (when a file is given), for the
    table, for the job config, to load, and for the job's result; the
    call returns, its last log line is [Upload complete.], and the job
    parameters hold exactly what was submitted. *)
Theorem upload_gcs_json_awaited_success w w1 t s2 c job s3 results s4 :
  await_result = true →
  assemble w = (Ok (), w1) →
  Client_get_table table_ref (svc w1) = (Ok t, s2) →
  kwc w1 t !! "self" = None →
  LoadJobConfig (kwc w1 t) = Ok c →
  kwj w1 t c !! "await_result" = None →
  kwj w1 t c !! "self" = None →
  Client_load_table_from_uri (kwj w1 t c) s2 = (Ok job, s3) →
  Job_result job s3 = (Ok results, s4) →
  (upload w).1 = Ok ()
  ∧ made upload w
    = schema_calls schema_json_path
      ++ [Call_get_table table_ref; Call_LoadJobConfig (kwc w1 t);
          Call_load_table_from_uri (kwj w1 t c); Call_result job]
  ∧ last (logs (upload w).2) = Some (INFO, Msg "Upload complete.")
  ∧ deref (upload w).2 jp = kwj w1 t c
  ∧ svc (upload w).2 = s4.
Proof.
  intros Hawait Ha Hg Hself Hc Hk1 Hk2 Hl Hr.
  destruct (upload_gcs_json_reaches_submission w w1 t s2 c Ha Hg Hself Hc)
    as [Hrun Hcalls].
  rewrite submit_load_job_run in Hrun by done.
  cbn [svc submitting] in Hrun. rewrite Hl, Hawait, Hr in Hrun.
  split; [by rewrite Hrun|]. split.
  { apply made_app. rewrite Hrun. cbn [snd calls].
    fold (calls (submitting w1 t c s2)). rewrite Hcalls.
    by rewrite <- !app_assoc. }
  rewrite Hrun. cbn [snd logs svc]. split; [apply last_snoc|].
  split; [|done]. unfold deref, submitting. cbn [heap].
  by rewrite lookup_insert_eq.
Qed.

(** X2. A call that does not await never asks for a job's result; once
    the load is accepted it returns, whatever becomes of the job, and
    the service is left as the submission left it. *)
Theorem upload_gcs_json_fire_and_forget w :
  await_result = false →
  (∀ j, Call_result j ∉ made upload w) ∧
  ∀ w1 t s2 c job s3,
    assemble w = (Ok (), w1) →
    Client_get_table table_ref (svc w1) = (Ok t, s2) →
    kwc w1 t !! "self" = None →
    LoadJobConfig (kwc w1 t) = Ok c →
    kwj w1 t c !! "await_result" = None →
    kwj w1 t c !! "self" = None →
    Client_load_table_from_uri (kwj w1 t c) s2 = (Ok job, s3) →
    (upload w).1 = Ok ()
    ∧ made upload w
      = schema_calls schema_json_path
        ++ [Call_get_table table_ref; Call_LoadJobConfig (kwc w1 t);
            Call_load_table_from_uri (kwj w1 t c)]
    ∧ svc (upload w).2 = s3.
Proof.
  intros Hawait. split.
  - intros j Hin.
    destruct (assemble w) as [[[]|e] w1] eqn:Ha; last first.
    { destruct (upload w) as [r w'] eqn:Hrun.
      apply upload_gcs_json_inv in Hrun as Hinv.
      fold cp assemble in Hinv.
      destruct Hinv as [(e' & _ & _ & Hm)|(w1' & Ha' & _)];
        [|by rewrite Ha in Ha'].
      fold upload in Hm. rewrite Hm in Hin.
      by apply not_in_schema_calls in Hin. }
    pose proof (upload_gcs_json_after_assembly bucket_name blob_name
                  bq_project dataset table append ignore_unknown
                  autodetect_schema schema_json_path await_result
                  config_params job_params w w1 Ha) as [_ Hrun].
    cbv zeta in Hrun. fold cp jp source_uri table_ref upload in Hrun.
    destruct (Client_get_table table_ref (svc w1)) as [[t|e] s2] eqn:Hg.
    + fold (jp3 w1 t) in Hrun. fold (kwc w1 t) in Hrun.
      destruct Hrun as (cs & Hm & Hcases).
      destruct Hcases as [(-> & _)|[(_ & e & _ & -> & _)
                                   |(Hself & c & cs' & Hc & -> & _)]].
      * rewrite Hm in Hin. apply elem_of_app in Hin as [Hin|Hin];
          [by apply not_in_schema_calls in Hin|]. by in_cases Hin.
      * rewrite Hm in Hin. apply elem_of_app in Hin as [Hin|Hin];
          [by apply not_in_schema_calls in Hin|]. by in_cases Hin.
      * destruct (upload_gcs_json_reaches_submission w w1 t s2 c
                    Ha Hg Hself Hc) as [Hrun Hcalls].
        assert (∃ tl, made upload w
                      = schema_calls schema_json_path
                        ++ [Call_get_table table_ref;
                            Call_LoadJobConfig (kwc w1 t)] ++ tl
                      ∧ ∀ x, x ∈ tl →
                          x = Call_load_table_from_uri (kwj w1 t c))
          as (tl & Hm' & Htl).
        { destruct (decide (kwj w1 t c !! "await_result" = None
                            ∧ kwj w1 t c !! "self" = None)) as [[Hk1 Hk2]|Hk].
          - rewrite submit_load_job_run in Hrun by done. rewrite Hawait in Hrun.
            destruct (Client_load_table_from_uri _ _) as [[job|e] s3];
              exists [Call_load_table_from_uri (kwj w1 t c)];
              (split; [|by intros x ->%list_elem_of_singleton]);
              apply made_app; rewrite Hrun; cbn [snd calls];
              rewrite Hcalls; by rewrite <- !app_assoc.
          - assert (is_Some (kwj w1 t c !! "await_result")
                    ∨ is_Some (kwj w1 t c !! "self")) as Hclash.
            { destruct (kwj w1 t c !! "await_result") eqn:E1; [eauto|].
              destruct (kwj w1 t c !! "self") eqn:E2; [eauto|].
              by destruct Hk. }
            destruct (submit_load_job_clash await_result (kwj w1 t c)
                        (submitting w1 t c s2) Hclash) as [n Hn].
            rewrite Hn in Hrun. exists []. split.
            + apply made_app. rewrite Hrun. cbn [snd]. rewrite Hcalls.
              by rewrite app_nil_r.
            + intros x Hx. by apply elem_of_nil in Hx. }
        rewrite Hm' in Hin. apply elem_of_app in Hin as [Hin|Hin];
          [by apply not_in_schema_calls in Hin|].
        apply elem_of_app in Hin as [Hin|Hin]; [by in_cases Hin|].
        by apply Htl in Hin.
    + destruct Hrun as (_ & Hm & _). rewrite Hm in Hin.
      apply elem_of_app in Hin as [Hin|Hin];
        [by apply not_in_schema_calls in Hin|]. by in_cases Hin.
  - intros w1 t s2 c job s3 Ha Hg Hself Hc Hk1 Hk2 Hl.
    destruct (upload_gcs_json_reaches_submission w w1 t s2 c Ha Hg Hself Hc)
      as [Hrun Hcalls].
    rewrite submit_load_job_run in Hrun by done.
    cbn [svc submitting] in Hrun. rewrite Hl, Hawait in Hrun.
    split; [by rewrite Hrun|]. split; [|by rewrite Hrun].
    apply made_app. rewrite Hrun. cbn [snd calls].
    fold (calls (submitting w1 t c s2)). rewrite Hcalls.
    by rewrite <- !app_assoc.
Qed.

(** X3. When an awaited load job fails, a [BadRequest] reaches the
    caller of [upload_gcs_json] as the [SystemError] with the fixed
    message, after the job's errors are logged at level ERROR; any other
    exception reaches the caller as it is and adds no log line.  In
    neither case is [Upload complete.] logged. *)
Theorem upload_gcs_json_job_failure w w1 t s2 c job s3 e s4 :
  await_result = true →
  assemble w = (Ok (), w1) →
  Client_get_table table_ref (svc w1) = (Ok t, s2) →
  kwc w1 t !! "self" = None →
  LoadJobConfig (kwc w1 t) = Ok c →
  kwj w1 t c !! "await_result" = None →
  kwj w1 t c !! "self" = None →
  Client_load_table_from_uri (kwj w1 t c) s2 = (Ok job, s3) →
  Job_result job s3 = (Raise e, s4) →
  (upload w).1
  = (if is_BadRequest e
     then Raise (SystemError
            "Import failed with BadRequest exception. See error data in logs.")
     else Raise e)
  ∧ logs (upload w).2
    = logs (submitting w1 t c s2)
      ++ (if is_BadRequest e
          then [(ERROR, MsgErrors (Job_errors job s4))] else [])
  ∧ made upload w
    = schema_calls schema_json_path
      ++ [Call_get_table table_ref; Call_LoadJobConfig (kwc w1 t);
          Call_load_table_from_uri (kwj w1 t c); Call_result job].
Proof.
  intros Hawait Ha Hg Hself Hc Hk1 Hk2 Hl Hr.
  destruct (upload_gcs_json_reaches_submission w w1 t s2 c Ha Hg Hself Hc)
    as [Hrun Hcalls].
  rewrite submit_load_job_run in Hrun by done.
  cbn [svc submitting] in Hrun. rewrite Hl, Hawait, Hr in Hrun.
  fold (submitting w1 t c s2) in Hcalls.
  destruct (is_BadRequest e); rewrite Hrun; cbn [fst snd logs calls];
    (split; [done|]); (split; [by rewrite ?app_nil_r|]);
    apply made_app; rewrite Hrun; cbn [snd calls];
    fold (calls (submitting w1 t c s2)); rewrite Hcalls;
    by rewrite <- !app_assoc.
Qed.

(** *** Every run, by where it ends *)

Lemma upload_gcs_json_cases w :
  (∃ e w', assemble w = (Raise e, w') ∧ upload w = (Raise e, w')
           ∧ made upload w = schema_calls schema_json_path) ∨
  ∃ w1, assemble w = (Ok (), w1) ∧
    ((∃ e s2, Client_get_table table_ref (svc w1) = (Raise e, s2)
        ∧ (upload w).1 = Raise e
        ∧ made upload w
          = schema_calls schema_json_path ++ [Call_get_table table_ref]) ∨
     ∃ t s2, Client_get_table table_ref (svc w1) = (Ok t, s2) ∧
       ((is_Some (kwc w1 t !! "self")
           ∧ (upload w).1 = Raise (TypeError_multiple_values "self")
           ∧ made upload w
             = schema_calls schema_json_path ++ [Call_get_table table_ref]) ∨
        (kwc w1 t !! "self" = None ∧
           ∃ e, LoadJobConfig (kwc w1 t) = Raise e
             ∧ (upload w).1 = Raise e
             ∧ made upload w
               = schema_calls schema_json_path
                 ++ [Call_get_table table_ref;
                     Call_LoadJobConfig (kwc w1 t)]) ∨
        (kwc w1 t !! "self" = None ∧
           ∃ c tl, LoadJobConfig (kwc w1 t) = Ok c
             ∧ upload w = _submit_load_job await_result (kwj w1 t c)
                            (submitting w1 t c s2)
             ∧ made upload w
               = schema_calls schema_json_path
                 ++ [Call_get_table table_ref;
                     Call_LoadJobConfig (kwc w1 t)] ++ tl
             ∧ ∀ x, x ∈ tl →
                 x = Call_load_table_from_uri (kwj w1 t c)
                 ∨ ∃ j, x = Call_result j))).
Proof.
  destruct (assemble w) as [[[]|e] w1] eqn:Ha; last first.
  { left. destruct (upload w) as [r w'] eqn:Hrun.
    apply upload_gcs_json_inv in Hrun as Hinv. fold cp assemble in Hinv.
    destruct Hinv as [(e' & Ha' & -> & Hm)|(w1' & Ha' & _)];
      [|by rewrite Ha in Ha'].
    rewrite Ha in Ha'. injection Ha' as <- <-. eauto. }
  right. exists w1. split; [done|].
  pose proof (upload_gcs_json_after_assembly bucket_name blob_name
                bq_project dataset table append ignore_unknown
                autodetect_schema schema_json_path await_result
                config_params job_params w w1 Ha) as [_ Hrun].
  cbv zeta in Hrun. fold cp jp source_uri table_ref upload in Hrun.
  destruct (Client_get_table table_ref (svc w1)) as [[t|e] s2] eqn:Hg.
  - right. exists t, s2. split; [done|].
    fold (jp3 w1 t) in Hrun. fold (kwc w1 t) in Hrun.
    destruct Hrun as (cs & Hm & Hcases).
    destruct Hcases as [(-> & Hself & _ & Hr)
                       |[(Hself & e & He & -> & _ & Hr)
                        |(Hself & c & cs' & Hc & -> & _ & Hcs')]].
    + left. eauto.
    + right; left. split; [done|]. exists e. eauto.
    + right; right. split; [done|]. exists c, cs'. split; [done|].
      split; [|split; [done|]].
      * by apply upload_gcs_json_reaches_submission.
      * intros x Hx. by apply Hcs'.
  - left. exists e, s2. destruct Hrun as (Hr & Hm & _). eauto.
Qed.

(** X4. A [job_params] mapping that has [await_result] or [self] among
    its keys can never be submitted: whatever the service does, the call
    raises and no load is asked of the handle. *)
Theorem upload_gcs_json_job_params_clash w :
  is_Some (deref w jp !! "await_result") ∨ is_Some (deref w jp !! "self") →
  (∃ e, (upload w).1 = Raise e) ∧
  ∀ kw, Call_load_table_from_uri kw ∉ made upload w.
Proof.
  intros Hclash.
  destruct (upload_gcs_json_cases w)
    as [(e & w' & _ & Hr & Hm)
       |(w1 & Ha & [(e & s2 & _ & Hr & Hm)
                   |(t & s2 & Hg & [(_ & Hr & Hm)
                                   |[(_ & e & _ & Hr & Hm)
                                    |(_ & c & tl & Hc & Hrun & _)]])])].
  1-4: split; [rewrite Hr; eauto|]; intros kw Hin; rewrite Hm in Hin;
       repeat (apply elem_of_app in Hin as [Hin|Hin]);
       first [by apply not_in_schema_calls in Hin|by in_cases Hin].
  assert (is_Some (kwj w1 t c !! "await_result")
          ∨ is_Some (kwj w1 t c !! "self")) as Hclash'.
  { unfold kwj, jp3. rewrite !lookup_insert_ne by done.
    unfold assemble in Ha.
    by rewrite !(assemble_config_keeps _ _ _ _ _ _ _ _ _ Ha). }
  destruct (submit_load_job_clash await_result (kwj w1 t c)
              (submitting w1 t c s2) Hclash') as [n Hn].
  rewrite Hn in Hrun. split; [rewrite Hrun; eauto|].
  intros kw Hin.
  assert (made upload w
          = schema_calls schema_json_path
            ++ [Call_get_table table_ref; Call_LoadJobConfig (kwc w1 t)])
    as Hm.
  { apply made_app. rewrite Hrun. cbn [snd].
    pose proof (assemble_config_calls append ignore_unknown autodetect_schema
                  schema_json_path cp w) as Hcalls.
    fold assemble in Hcalls. rewrite Ha in Hcalls. cbn [snd] in Hcalls.
    unfold submitting. cbn [calls]. by rewrite Hcalls, <- app_assoc. }
  rewrite Hm in Hin. apply elem_of_app in Hin as [Hin|Hin];
    [by apply not_in_schema_calls in Hin|by in_cases Hin].
Qed.

(** X5. A [config_params] mapping that has [self] among its keys can
    never be made into a job config: whatever the service does, the call
    raises, and neither [LoadJobConfig] nor a load is asked for. *)
Theorem upload_gcs_json_config_params_clash w :
  is_Some (deref w cp !! "self") →
  (∃ e, (upload w).1 = Raise e)
  ∧ (∀ kw, Call_LoadJobConfig kw ∉ made upload w)
  ∧ ∀ kw, Call_load_table_from_uri kw ∉ made upload w.
Proof.
  intros Hself.
  assert (∀ w1 t, assemble w = (Ok (), w1) → is_Some (kwc w1 t !! "self"))
    as Hkwc.
  { intros w1 t Ha. unfold assemble in Ha. unfold kwc, jp3.
    case_decide as Hd.
    - rewrite !lookup_insert_ne by done. rewrite <- Hd.
      by rewrite (assemble_config_keeps _ _ _ _ _ _ _ _ _ Ha).
    - by rewrite (assemble_config_keeps _ _ _ _ _ _ _ _ _ Ha). }
  destruct (upload_gcs_json_cases w)
    as [(e & w' & _ & Hr & Hm)
       |(w1 & Ha & [(e & s2 & _ & Hr & Hm)
                   |(t & s2 & Hg & [(_ & Hr & Hm)
                                   |[(Hn & _)|(Hn & _)]])])].
  1-3: split; [rewrite Hr; eauto|]; split; intros kw Hin; rewrite Hm in Hin;
       repeat (apply elem_of_app in Hin as [Hin|Hin]);
       first [by apply not_in_schema_calls in Hin|by in_cases Hin].
  all: destruct (Hkwc w1 t Ha) as [v Hv]; by rewrite Hn in Hv.
Qed.

(** *** The schema file *)

(** X6. When the schema file parses, the call leaves the parsed schema
    under the [schema] key of the config mapping, whatever the caller's
    mapping held under that key; every job config of the call is built
    with it, and a call that returns has built one.  The log of the
    call starts with the warning about [autodetect_schema] when that is
    also set, then [Trying to build schema...] and [Schema built.],
    before anything the submission logs. *)
Theorem upload_gcs_json_parsed_schema w p fields s' :
  truthy_path schema_json_path = Some p →
  Client_schema_from_json p (svc w) = (Ok fields, s') →
  deref (upload w).2 cp !! "schema" = Some (VSchema fields)
  ∧ (∃ rest,
       logs (upload w).2
       = logs w
         ++ (if autodetect_schema then [(WARNING, Msg autodetect_warning)]
             else [])
         ++ [(DEBUG, Msg "Trying to build schema...");
             (INFO, Msg "Schema built.")]
         ++ rest)
  ∧ (∀ kw, Call_LoadJobConfig kw ∈ made upload w →
           kw !! "schema" = Some (VSchema fields))
  ∧ ((upload w).1 = Ok () →
     ∃ kw, Call_LoadJobConfig kw ∈ made upload w
           ∧ kw !! "schema" = Some (VSchema fields)).
Proof.
  intros Ht Hp.
  assert (∃ w1, assemble w = (Ok (), w1)
            ∧ deref w1 cp !! "schema" = Some (VSchema fields)
            ∧ logs w1
              = logs w
                ++ (if autodetect_schema
                    then [(WARNING, Msg autodetect_warning)] else [])
                ++ [(DEBUG, Msg "Trying to build schema...");
                    (INFO, Msg "Schema built.")])
    as (w1 & Ha & Hs & Hl).
  { unfold assemble. rewrite assemble_config_run, Ht. cbn zeta. rewrite Hp.
    eexists. split; [done|]. split.
    - rewrite deref_store_eq. unfold with_arguments. lookup_key.
    - unfold store, schema_preamble. cbn [logs].
      by rewrite <- !app_assoc. }
  pose proof (upload_gcs_json_key_of_config bucket_name blob_name
                bq_project dataset table append ignore_unknown
                autodetect_schema schema_json_path await_result
                config_params job_params w w1 "schema" (VSchema fields)
                Ha Hs) as (Hstore & Hall & Hsome); [done..|].
  split; [done|]. split; [|done].
  destruct (appends_submit_assembled await_result source_uri table_ref
              cp jp w1) as [rest Hrest].
  exists rest. unfold upload, upload_gcs_json.
  fold cp jp source_uri table_ref. fold assemble.
  unfold bind at 1. rewrite Ha, Hrest, Hl.
  by rewrite <- !app_assoc.
Qed.

(** X7. An exception of the schema parse that is not an [Exception]
    (an interrupt, an exit) is not swallowed: it ends the call at once,
    before any key is written to either mapping and before the handle is
    asked for the table. *)
Theorem upload_gcs_json_parse_interrupted w p e s' :
  truthy_path schema_json_path = Some p →
  Client_schema_from_json p (svc w) = (Raise e, s') →
  is_Exception e = false →
  upload w
  = (Raise e,
     World (heap w) (logs w ++ schema_preamble autodetect_schema)
       (calls w ++ [Call_schema_from_json p]) s').
Proof.
  intros Ht Hp He. unfold upload, upload_gcs_json.
  unfold bind at 1. rewrite assemble_config_run, Ht. cbn zeta.
  by rewrite Hp, He.
Qed.

(** *** The caller's other keys *)


(** *** One dictionary for both mappings *)

(** X9. When the caller passes one dictionary as both [config_params]
    and [job_params], the job config is built from a mapping that also
    holds [source_uris] and [destination], and the load is submitted
    with the config keys among its parameters. *)
Theorem upload_gcs_json_one_dictionary w :
  cp = jp →
  (∀ kw, Call_LoadJobConfig kw ∈ made upload w →
     kw !! "source_uris" = Some (VStr source_uri)
     ∧ ∃ t, kw !! "destination" = Some (VTable t)) ∧
  (∀ kw, Call_load_table_from_uri kw ∈ made upload w →
     kw !! "autodetect" = Some (VBool autodetect_schema)
     ∧ kw !! "source_format" = Some SourceFormat.NEWLINE_DELIMITED_JSON).
Proof.
  intros Hsame.
  destruct (upload_gcs_json_cases w)
    as [(e & w' & _ & Hr & Hm)
       |(w1 & Ha & [(e & s2 & _ & Hr & Hm)
                   |(t & s2 & Hg & [(_ & Hr & Hm)
                                   |[(_ & e & _ & Hr & Hm)
                                    |(_ & c & tl & Hc & _ & Hm & Htl)]])])].
  1-3: split; intros kw Hin; rewrite Hm in Hin;
       repeat (apply elem_of_app in Hin as [Hin|Hin]);
       first [by apply not_in_schema_calls in Hin|by in_cases Hin].
  - split; intros kw Hin; rewrite Hm in Hin;
      (apply elem_of_app in Hin as [Hin|Hin];
       [by apply not_in_schema_calls in Hin|]); in_cases Hin.
    injection Hin as ->. unfold kwc. rewrite decide_True by done.
    unfold jp3. split; [lookup_key|]. exists t. lookup_key.
  - apply assemble_config_ok in Ha as Hok.
    destruct Hok as (_ & m & Hcp & _).
    split; intros kw Hin; rewrite Hm in Hin;
      (apply elem_of_app in Hin as [Hin|Hin];
       [by apply not_in_schema_calls in Hin|]);
      apply elem_of_app in Hin as [Hin|Hin].
    + in_cases Hin. injection Hin as ->. unfold kwc.
      rewrite decide_True by done.
      unfold jp3. split; [lookup_key|]. exists t. lookup_key.
    + apply Htl in Hin as [?|[j ?]]; done.
    + by in_cases Hin.
    + apply Htl in Hin as [[= ->]|[j ?]]; [|done].
      unfold kwj, jp3. rewrite !lookup_insert_ne by done.
      rewrite <- Hsame, Hcp. unfold with_arguments. split; lookup_key.
Qed.

(** *** A call that fails at the table lookup *)

(** X10. When the table lookup raises, the caller's mappings have
    already been written to: the config mapping holds the four explicit
    arguments and the job parameters hold [source_uris], while
    [destination] and [job_config] are still what they were before the
    call. *)
Theorem upload_gcs_json_writes_before_lookup w w1 e s2 :
  assemble w = (Ok (), w1) →
  Client_get_table table_ref (svc w1) = (Raise e, s2) →
  deref (upload w).2 cp !! "write_disposition"
  = Some (if append then WriteDisposition.WRITE_APPEND
          else WriteDisposition.WRITE_TRUNCATE)
  ∧ deref (upload w).2 cp !! "source_format"
    = Some SourceFormat.NEWLINE_DELIMITED_JSON
  ∧ deref (upload w).2 cp !! "ignore_unknown_values"
    = Some (VBool ignore_unknown)
  ∧ deref (upload w).2 cp !! "autodetect" = Some (VBool autodetect_schema)
  ∧ deref (upload w).2 jp !! "source_uris" = Some (VStr source_uri)
  ∧ deref (upload w).2 jp !! "destination" = deref w jp !! "destination"
  ∧ deref (upload w).2 jp !! "job_config" = deref w jp !! "job_config".
Proof.
  intros Ha Hg.
  pose proof (upload_gcs_json_final_store bucket_name blob_name
                bq_project dataset table append ignore_unknown
                autodetect_schema schema_json_path await_result
                config_params job_params w w1 Ha) as [Hsrc Hkeep].
  pose proof (upload_gcs_json_after_assembly bucket_name blob_name
                bq_project dataset table append ignore_unknown
                autodetect_schema schema_json_path await_result
                config_params job_params w w1 Ha) as [_ Hrun].
  cbv zeta in Hrun. fold cp jp source_uri table_ref upload in Hrun, Hsrc, Hkeep.
  rewrite Hg in Hrun. destruct Hrun as (_ & _ & Hjp).
  pose proof Ha as (_ & m & Hm & _)%assemble_config_ok.
  rewrite !Hkeep by done. rewrite Hm.
  do 4 (split; [unfold with_arguments; lookup_key|]).
  split; [done|].
  rewrite Hjp, !lookup_insert_ne by done.
  split; by apply (assemble_config_keeps _ _ _ _ _ _ _ _ _ Ha).
Qed.
End OneCall.
End UploadForwards.

(** ** What the methods leave alone *)

Section Frame.
Context {S : Type} `{!BigQuerySDK S}.
Implicit Types (w : world S) (d : ref).

(** X11. A call writes to no dictionary but the mappings it was given:
    [upload_gcs_json] to its config mapping and job parameters, [query]
    to its query config; [get_schema] and [_monitor_job] write to none.
    This holds however the call ends. *)
Theorem methods_write_only_their_mappings :
  (∀ (bucket_name blob_name bq_project dataset table : string)
     (append ignore_unknown autodetect_schema : bool)
     (schema_json_path : option string) (await_result : bool)
     (config_params job_params : option ref) w d,
     d ≠ default Defaults.upload_gcs_json_config_params config_params →
     d ≠ default Defaults.upload_gcs_json_job_params job_params →
     deref (upload_gcs_json bucket_name blob_name bq_project dataset table
              append ignore_unknown autodetect_schema schema_json_path
              await_result config_params job_params w).2 d
     = deref w d)
  ∧ (∀ (q : string) query_config (await_result : bool) w d,
       d ≠ default Defaults.query_query_config query_config →
       deref (query q query_config await_result w).2 d = deref w d)
  ∧ (∀ (bq_project dataset table : string) w,
       heap (get_schema bq_project dataset table w).2 = heap w)
  ∧ (∀ job w, heap (_monitor_job job w).2 = heap w).
Proof.
  split; [|split; [|split]].
  - intros bucket_name blob_name bq_project dataset table append
      ignore_unknown autodetect_schema schema_json_path await_result
      config_params job_params w d Hcp Hjp.
    pose proof (assemble_config_frame append ignore_unknown autodetect_schema
                  schema_json_path _ w d Hcp) as Hf.
    destruct (upload_gcs_json _ _ _ _ _ _ _ _ _ _ _ _ w) as [r w'] eqn:Hrun.
    apply upload_gcs_json_inv in Hrun
      as [(e & Ha & _)|(w1 & Ha & _ & Hsub)];
      rewrite Ha in Hf; cbn [snd] in Hf |- *; [done|].
    apply submit_assembled_inv in Hsub as [Hother _].
    by rewrite Hother.
  - intros q query_config await_result w d Hd.
    destruct (query q query_config await_result w) as [r w'] eqn:Hrun.
    apply query_inv in Hrun as (_ & Hother & _). by apply Hother.
  - intros bq_project dataset table w.
    unfold get_schema, bind, remote, ret.
    by destruct (Client_get_table _ _) as [[t|e] s'].
  - intros job w. apply monitor_job_effect.
Qed.
End Frame.

(** ** More about [query] *)

Section QueryForwards.
Context {S : Type} `{!BigQuerySDK S}.
Implicit Types (w : world S) (d : gmap string value).

(** What [dict(pairs)] holds under a key: the value of the last pair
    with that key. *)
Lemma dict_lookup pairs k :
  dict pairs !! k = snd <$> last (filter (λ kv, kv.1 = k) pairs).
Proof.
  induction pairs as [|[k' v'] pairs IH] using rev_ind; [done|].
  rewrite dict_snoc, filter_app, filter_cons, filter_nil. cbn [fst].
  case_decide as Hk.
  - subst k'. by rewrite lookup_insert_eq, last_snoc.
  - rewrite lookup_insert_ne by done. by rewrite app_nil_r.
Qed.

Lemma dict_lookup_NoDup pairs k v :
  NoDup pairs.*1 → (k, v) ∈ pairs → dict pairs !! k = Some v.
Proof.
  induction pairs as [|[k' v'] pairs IH] using rev_ind;
    [by intros _ ?%elem_of_nil|].
  rewrite fmap_app, dict_snoc. cbn [fmap list_fmap fst].
  intros [Hnd [Hdisj _]]%NoDup_app Hin.
  apply elem_of_app in Hin as [Hin|Hin].
  - assert (k ≠ k') as Hne.
    { intros ->. apply (Hdisj k'); [|left].
      apply list_elem_of_fmap. by exists (k', v). }
    rewrite lookup_insert_ne by done. by apply IH.
  - apply list_elem_of_singleton in Hin as [= -> ->].
    apply lookup_insert_eq.
Qed.

(** The run of a query whose config, if any, has been built. *)
Lemma query_submitted (q : string) qc (await_result : bool) w config :
  let d := assembled_query_config await_result
             (deref w (default Defaults.query_query_config qc)) in
  let run := query q qc await_result in
  let pre := match config with
             | None => []
             | Some _ => [Call_QueryJobConfig d]
             end in
  match config with
  | None => d = ∅
  | Some c => d ≠ ∅ ∧ QueryJobConfig d = Ok c
  end →
  match Client_query q config (svc w) with
  | (Raise e, _) =>
      (run w).1 = Raise e ∧ made run w = pre ++ [Call_query q config]
  | (Ok job, s1) =>
      if await_result then
        match Job_result job s1 with
        | (Raise e, _) =>
            (run w).1 = Raise e
            ∧ made run w = pre ++ [Call_query q config; Call_result job]
        | (Ok results, _) =>
            made run w = pre ++ [Call_query q config; Call_result job;
                                 Call_len results] ∧
            match RowIterator_len results with
            | Raise e => (run w).1 = Raise e
            | Ok _ =>
                (run w).1 = Ok (Some ((λ row, dict (items row))
                                      <$> it_rows results))
            end
        end
      else (run w).1 = Ok None ∧ made run w = pre ++ [Call_query q config]
  end.
Proof.
  intros d run pre Hconfig. unfold run.
  assert (∀ m : gmap string value, size m = 0 ↔ m = ∅) as Hsize
    by (intros m; apply map_size_empty_iff).
  destruct (query q qc await_result w) as [r w'] eqn:Hrun.
  pose proof Hrun as Hrun'.
  apply query_inv in Hrun as (_ & _ & cs & Hcs & Hcases).
  fold d in Hcases.
  assert (made (query q qc await_result) w = cs) as ->.
  { apply made_app. by rewrite Hrun'. }
  clear Hcs Hrun'. cbn [fst].
  destruct Hcases as [(Hnz & e & He & _)
                     |(config' & pre' & Hpre & rq & sq & Hq & Hcases)].
  { destruct config as [c|]; [destruct Hconfig as [_ Hc]|];
      [by rewrite Hc in He|by rewrite <- Hsize in Hconfig]. }
  assert (config' = config ∧ pre' = pre) as [-> ->].
  { destruct Hpre as [(Hz & -> & ->)|(Hnz & c' & Hc' & -> & ->)];
      destruct config as [c|]; try done.
    - destruct Hconfig as [Hne _]. by rewrite <- Hsize in Hne.
    - destruct Hconfig as [_ Hc]. rewrite Hc in Hc'. by injection Hc' as ->.
    - by rewrite <- Hsize in Hconfig. }
  rewrite Hq. destruct rq as [job|e]; [|done].
  destruct await_result; [|done].
  destruct Hcases as (rr & sr & -> & Hcases). by destruct rr.
Qed.

(** X12. [query] hands every failure to its caller as it is: what the
    config constructor raises (the query is then never submitted), what
    the submission raises (the result is then never asked for), and
    what [result()] raises, a [BadRequest] included, which
    [upload_gcs_json] would have turned into a [SystemError]. *)
Theorem query_failures_reach_the_caller (q : string) qc (await_result : bool)
    w :
  let d := assembled_query_config await_result
             (deref w (default Defaults.query_query_config qc)) in
  let run := query q qc await_result in
  (∀ e, d ≠ ∅ → QueryJobConfig d = Raise e →
        (run w).1 = Raise e ∧ made run w = [Call_QueryJobConfig d])
  ∧ (∀ config e s1,
       match config with
       | None => d = ∅
       | Some c => d ≠ ∅ ∧ QueryJobConfig d = Ok c
       end →
       Client_query q config (svc w) = (Raise e, s1) →
       (run w).1 = Raise e ∧ ∀ j, Call_result j ∉ made run w)
  ∧ (∀ config job s1 e s2,
       await_result = true →
       match config with
       | None => d = ∅
       | Some c => d ≠ ∅ ∧ QueryJobConfig d = Ok c
       end →
       Client_query q config (svc w) = (Ok job, s1) →
       Job_result job s1 = (Raise e, s2) →
       (run w).1 = Raise e ∧ ∀ results, Call_len results ∉ made run w).
Proof.
  intros d run. split; [|split].
  - intros e Hne He.
    pose proof (query_calls q qc await_result w) as [_ Hcalls].
    cbv zeta in Hcalls. fold d run in Hcalls.
    destruct Hcalls as [(_ & (e' & He' & Hr) & Hm)
                       |(config & pre & tail & _ & Hpre & _)].
    + rewrite He in He'. injection He' as <-. done.
    + destruct Hpre as [(Hz & _)|(_ & c & Hc & _)].
      * by apply map_size_empty_iff in Hz.
      * by rewrite He in Hc.
  - intros config e s1 Hconfig Hq.
    pose proof (query_submitted q qc await_result w config Hconfig) as Hrun.
    cbv zeta in Hrun. fold d run in Hrun. rewrite Hq in Hrun.
    destruct Hrun as [Hr Hm]. split; [done|]. intros j Hin.
    rewrite Hm in Hin. destruct config; by in_cases Hin.
  - intros config job s1 e s2 Hawait Hconfig Hq Hres.
    pose proof (query_submitted q qc await_result w config Hconfig) as Hrun.
    cbv zeta in Hrun. fold d run in Hrun.
    rewrite Hq, Hawait, Hres in Hrun.
    destruct Hrun as [Hr Hm]. split; [done|]. intros results Hin.
    rewrite Hm in Hin. destruct config; by in_cases Hin.
Qed.

(** X13. An awaited query whose job has a result still fails when
    [len(results)] does: the exception of [len] is what the caller gets,
    after the query has been submitted and run, and no row is
    returned. *)
Theorem query_needs_len (q : string) qc w config job s1 results s2 e :
  let d := deref w (default Defaults.query_query_config qc) in
  match config with
  | None => d = ∅
  | Some c => d ≠ ∅ ∧ QueryJobConfig d = Ok c
  end →
  Client_query q config (svc w) = (Ok job, s1) →
  Job_result job s1 = (Ok results, s2) →
  RowIterator_len results = Raise e →
  (query q qc true w).1 = Raise e
  ∧ Call_query q config ∈ made (query q qc true) w
  ∧ Call_result job ∈ made (query q qc true) w.
Proof.
  intros d Hconfig Hq Hres Hlen.
  pose proof (query_submitted q qc true w config Hconfig) as Hrun.
  cbv zeta in Hrun. rewrite Hq, Hres, Hlen in Hrun.
  destruct Hrun as [Hm Hr]. split; [done|]. rewrite Hm.
  split; apply elem_of_app; right.
  - left.
  - right. left.
Qed.

(** X14. In the list an awaited query returns, the mapping of a row
    holds under each column name the last value the row has for that
    name; so when the column names of the row are distinct, every cell
    is found under its column name. *)
Theorem query_cells_by_column (q : string) qc w config job s1 results s2 n :
  let d := deref w (default Defaults.query_query_config qc) in
  match config with
  | None => d = ∅
  | Some c => d ≠ ∅ ∧ QueryJobConfig d = Ok c
  end →
  Client_query q config (svc w) = (Ok job, s1) →
  Job_result job s1 = (Ok results, s2) →
  RowIterator_len results = Ok n →
  ∃ rows,
    (query q qc true w).1 = Ok (Some rows) ∧
    ∀ i row, it_rows results !! i = Some row →
      ∃ m, rows !! i = Some m
        ∧ (∀ k, m !! k
                = snd <$> last (filter (λ kv, kv.1 = k) (items row)))
        ∧ (NoDup (items row).*1 →
           ∀ k v, (k, v) ∈ items row → m !! k = Some v).
Proof.
  intros d Hconfig Hq Hres Hlen.
  pose proof (query_submitted q qc true w config Hconfig) as Hrun.
  cbv zeta in Hrun. rewrite Hq, Hres, Hlen in Hrun.
  destruct Hrun as [_ Hr]. eexists. split; [exact Hr|].
  intros i row Hi. exists (dict (items row)).
  split; [by rewrite list_lookup_fmap, Hi|]. split.
  - intros k. apply dict_lookup.
  - intros Hnd k v Hin. by apply dict_lookup_NoDup.
Qed.

(** X15. [query] changes its mapping only by adding [priority], and
    only when it does not await and the mapping has none: an awaited
    query and a query given a priority leave the mapping as it was.  A
    query that does not await is therefore always submitted with a
    config object. *)
Theorem query_respects_given_priority (q : string) qc (await_result : bool)
    w :
  let qcr := default Defaults.query_query_config qc in
  let run := query q qc await_result in
  (await_result = true ∨ is_Some (deref w qcr !! "priority") →
   deref (run w).2 qcr = deref w qcr)
  ∧ (∀ k, k ≠ "priority" → deref (run w).2 qcr !! k = deref w qcr !! k)
  ∧ (await_result = false →
     ∀ q' config, Call_query q' config ∈ made run w → is_Some config).
Proof.
  intros qcr run.
  pose proof (query_calls q qc await_result w) as [Hd Hcalls].
  cbv zeta in Hd, Hcalls. fold qcr run in Hd, Hcalls.
  split; [|split].
  - intros Hkeep. rewrite Hd. unfold assembled_query_config.
    destruct Hkeep as [->|[v Hv]]; [done|].
    rewrite bool_decide_eq_false_2; [by rewrite andb_false_r|].
    by rewrite Hv.
  - intros k Hk. rewrite Hd. unfold assembled_query_config.
    destruct (negb await_result && _); [|done].
    by rewrite lookup_insert_ne.
  - intros Hawait q' config Hin.
    assert (assembled_query_config await_result (deref w qcr) ≠ ∅) as Hne.
    { rewrite Hawait. unfold assembled_query_config. cbn [negb andb].
      case_bool_decide as Hp; [apply insert_non_empty|].
      intros Hempty. rewrite Hempty in Hp. by apply Hp. }
    destruct Hcalls as [(_ & _ & Hm)
                       |(config' & pre & tail & Hm & Hpre & Htail & _)].
    { rewrite Hm in Hin. by in_cases Hin. }
    destruct Hpre as [(Hz & _)|(_ & c & _ & -> & ->)].
    { by apply map_size_empty_iff in Hz. }
    rewrite Hm in Hin. cbn [app] in Hin.
    apply elem_of_cons in Hin as [?|Hin]; [done|].
    apply elem_of_cons in Hin as [[= -> ->]|Hin]; [eauto|].
    apply Htail in Hin as [[j ?]|[it ?]]; done.
Qed.
End QueryForwards.

(** ** The further properties on the two services *)

Lemma upload_gcs_json_awaited_success_witness :
  (Callers.upload_on true (Some 7) (Some 8) Demo.caller).1 = Ok ().
Proof.
  refine (proj1 (upload_gcs_json_awaited_success
                   "bucket" "events.json" "proj" "ds" "events"
                   true true false None true (Some 7) (Some 8) Demo.caller
                   (assemble_config true true false None 7 Demo.caller).2
                   Demo.events 0
                   (VJobConfig "LoadJobConfig"
                      (with_arguments true true false (deref Demo.caller 7)))
                   (mkJob "load-0") 1 Demo.rows 1
                   _ _ _ _ _ _ _ _ _)); vm_compute; reflexivity.
Defined.

Lemma upload_gcs_json_fire_and_forget_witness :
  (Callers.upload_on false (Some 7) (Some 8) Demo.caller).1 = Ok ().
Proof.
  refine (proj1 (proj2 (upload_gcs_json_fire_and_forget
                          "bucket" "events.json" "proj" "ds" "events"
                          true true false None false (Some 7) (Some 8)
                          Demo.caller eq_refl)
                   (assemble_config true true false None 7 Demo.caller).2
                   Demo.events 0
                   (VJobConfig "LoadJobConfig"
                      (with_arguments true true false (deref Demo.caller 7)))
                   (mkJob "load-0") 1
                   _ _ _ _ _ _ _)); vm_compute; reflexivity.
Defined.

Lemma upload_gcs_json_job_failure_witness :
  (Picky.upload_of "bad.json" None Picky.fresh).1
  = Raise (SystemError
      "Import failed with BadRequest exception. See error data in logs.").
Proof.
  refine (proj1 (upload_gcs_json_job_failure
                   "bucket" "bad.json" "proj" "ds" "events"
                   true true false None true None None Picky.fresh
                   (assemble_config true true false None 0 Picky.fresh).2
                   Demo.events (Picky.Desk 0)
                   (VJobConfig "LoadJobConfig"
                      (with_arguments true true false ∅))
                   (mkJob "rejected") (Picky.Desk 1)
                   (BadRequest "BadRequest" "400 Error while reading data")
                   (Picky.Desk 1)
                   _ _ _ _ _ _ _ _ _)); vm_compute; reflexivity.
Defined.

Lemma upload_gcs_json_job_params_clash_witness :
  ∃ e, (Callers.upload_on true None (Some 9) Callers.overriding).1 = Raise e.
Proof.
  refine (proj1 (upload_gcs_json_job_params_clash
                   "bucket" "events.json" "proj" "ds" "events"
                   true true false None true None (Some 9)
                   Callers.overriding _)).
  left. exists (VBool false). vm_compute. reflexivity.
Defined.

Lemma upload_gcs_json_config_params_clash_witness :
  ∃ e, (Callers.upload_on true (Some 9) None Callers.selfish).1 = Raise e.
Proof.
  refine (proj1 (upload_gcs_json_config_params_clash
                   "bucket" "events.json" "proj" "ds" "events"
                   true true false None true (Some 9) None
                   Callers.selfish _)).
  exists VNone. vm_compute. reflexivity.
Defined.

Lemma upload_gcs_json_parsed_schema_witness :
  deref (DemoRuns.callers_upload_with (Some "schema.json") Demo.caller).2 7
    !! "schema" = Some (VSchema Demo.events_schema)
  ∧ ∃ kw, Call_LoadJobConfig kw
            ∈ made (DemoRuns.callers_upload_with (Some "schema.json"))
                Demo.caller
          ∧ kw !! "schema" = Some (VSchema Demo.events_schema).
Proof.
  destruct (upload_gcs_json_parsed_schema
              "bucket" "events.json" "proj" "ds" "events"
              true true false (Some "schema.json") true
              (Some 7) (Some 8) Demo.caller
              "schema.json" Demo.events_schema 0)
    as (Hstore & _ & _ & Hbuilt).
  1-2: vm_compute; reflexivity.
  split; [exact Hstore|]. apply Hbuilt. vm_compute. reflexivity.
Defined.

Lemma upload_gcs_json_parse_interrupted_witness :
  (Picky.upload_of "events.json" (Some "interrupted.json") Picky.fresh).1
  = Raise (NonException "KeyboardInterrupt" EmptyString).
Proof.
  unfold Picky.upload_of.
  rewrite (upload_gcs_json_parse_interrupted
             "bucket" "events.json" "proj" "ds" "events"
             true true false (Some "interrupted.json") true None None
             Picky.fresh "interrupted.json"
             (NonException "KeyboardInterrupt" EmptyString) (Picky.Desk 0));
    [reflexivity|vm_compute; reflexivity..].
Defined.


Lemma upload_gcs_json_one_dictionary_witness :
  Call_LoadJobConfig
    (<["destination" := VTable Demo.events]>
       (<["source_uris" := VStr "gs://bucket/events.json"]>
          (with_arguments true true false (deref Callers.tuned 9))))
    ∈ made (Callers.upload_on true (Some 9) (Some 9)) Callers.tuned
  ∧ (<["destination" := VTable Demo.events]>
       (<["source_uris" := VStr "gs://bucket/events.json"]>
          (with_arguments true true false (deref Callers.tuned 9))))
      !! "source_uris"
    = Some (VStr "gs://bucket/events.json").
Proof.
  assert (Call_LoadJobConfig
            (<["destination" := VTable Demo.events]>
               (<["source_uris" := VStr "gs://bucket/events.json"]>
                  (with_arguments true true false (deref Callers.tuned 9))))
            ∈ made (Callers.upload_on true (Some 9) (Some 9)) Callers.tuned)
    as Hin.
  { vm_compute. apply list_elem_of_further. apply list_elem_of_here. }
  split; [exact Hin|].
  exact (proj1 (proj1 (upload_gcs_json_one_dictionary
                         "bucket" "events.json" "proj" "ds" "events"
                         true true false None true (Some 9) (Some 9)
                         Callers.tuned eq_refl) _ Hin)).
Defined.

Lemma upload_gcs_json_writes_before_lookup_witness :
  deref (DemoRuns.upload_to_missing Demo.fresh).2
        Defaults.upload_gcs_json_config_params !! "write_disposition"
  = Some WriteDisposition.WRITE_APPEND
  ∧ deref (DemoRuns.upload_to_missing Demo.fresh).2
          Defaults.upload_gcs_json_job_params !! "source_uris"
    = Some (VStr "gs://bucket/events.json").
Proof.
  pose proof (upload_gcs_json_writes_before_lookup
                "bucket" "events.json" "proj" "ds" "missing"
                true true true None true None None Demo.fresh
                (assemble_config true true true None 0 Demo.fresh).2
                (OtherException "NotFound"
                   "Not found: Table proj.ds.missing") 0)
    as (Hwd & _ & _ & _ & Hsrc & _).
  1-2: vm_compute; reflexivity.
  split; [exact Hwd|exact Hsrc].
Defined.

Lemma methods_write_only_their_mappings_witness :
  deref (Callers.upload_on true (Some 7) (Some 8) Demo.caller).2
        Defaults.query_query_config
  = deref Demo.caller Defaults.query_query_config.
Proof.
  refine (proj1 methods_write_only_their_mappings
            "bucket" "events.json" "proj" "ds" "events"
            true true false None true (Some 7) (Some 8) Demo.caller
            Defaults.query_query_config _ _); discriminate.
Defined.

Lemma query_failures_reach_the_caller_witness :
  (query "SELECT denied" None true Picky.fresh).1
  = Raise (OtherException "Forbidden" "403 Access Denied").
Proof.
  refine (proj1 (proj1 (proj2 (query_failures_reach_the_caller
                                 "SELECT denied" None true Picky.fresh))
                   None (OtherException "Forbidden" "403 Access Denied")
                   (Picky.Desk 0) _ _)); vm_compute; reflexivity.
Defined.

Lemma query_needs_len_witness :
  (query "SELECT 1" None true Picky.fresh).1 = Raise Picky.no_len.
Proof.
  refine (proj1 (query_needs_len "SELECT 1" None Picky.fresh None
                   (mkJob "fine") (Picky.Desk 1) Demo.rows (Picky.Desk 1)
                   Picky.no_len _ _ _ _)); vm_compute; reflexivity.
Defined.

Lemma query_cells_by_column_witness :
  ∃ rows, (query "SELECT 1" None true Demo.fresh).1 = Ok (Some rows)
    ∧ ∃ m, rows !! 1 = Some m ∧ m !! "id" = Some (VInt 2).
Proof.
  destruct (query_cells_by_column "SELECT 1" None Demo.fresh None
              (mkJob "query-0") 1 Demo.rows 1 2)
    as (rows & Hr & Hrows).
  1-4: vm_compute; reflexivity.
  destruct (Hrows 1 (mkRow [("id", VInt 2); ("name", VNone)]) eq_refl)
    as (m & Hm & _ & Hcell).
  exists rows. split; [exact Hr|]. exists m. split; [exact Hm|].
  apply Hcell.
  - vm_compute. repeat constructor; intros Hin; by in_cases Hin.
  - left.
Defined.

Lemma query_respects_given_priority_witness :
  deref (query "UPDATE t SET x = 1" (Some 9) false Callers.prioritised).2 9
  = deref Callers.prioritised 9.
Proof.
  refine (proj1 (query_respects_given_priority
                   "UPDATE t SET x = 1" (Some 9) false Callers.prioritised)
            _).
  right. exists (VStr "INTERACTIVE"). vm_compute. reflexivity.
Defined.
